(** * Cart-to-order workflow, order lifecycle and product cache

    A shallow embedding of the service layer of the e-commerce demo
    (internal/services: order.go, product.go and the cart service) over a
    small relational store, with the properties of the specification
    stated and proved against it.

    Modelling conventions.
    - The relational store is a record of tables, each a list of rows in
      table order.  A statement either fails (decided by a fault oracle,
      one entry per call site of the Go code) or has its SQL effect.
    - Monetary amounts are the DECIMAL(10,2) column values counted in
      hundredths, as [Z]; the rounding of Go's float64 is not modelled, and
      the float64 total that GetCart returns without storing it is left
      out.
    - Integers (ids, quantities) are [Z].  Of the timestamp columns only
      orders.updated_at is kept, in seconds: UpdateOrderStatus writes it,
      and MySQL counts a row as affected only when a column changes.  The
      other timestamps are written once, by their defaults, and left out.
    - A statement that reads the server clock (NOW(), CURRENT_TIMESTAMP)
      gets the second it shows as the argument [now] of the service call.
    - A transaction works on a private copy of the tables which replaces
      the committed tables on commit and is dropped on rollback; the
      AUTO_INCREMENT counters are not transactional.
    - Metric instruments are modelled by the list of events they receive;
      logging and the per-query instrumentation (RecordDBQuery) are
      left out. *)

From Stdlib Require Import ZArith List Bool Lia Permutation Ascii.
From stdpp Require Import gmap strings list fin_maps.
Import ListNotations.

Open Scope string_scope.
Open Scope list_scope.
Open Scope Z_scope.

(** ** Rows of schema.sql *)

Record ProductRow := mkProductRow {
  p_id : Z;
  p_name : string;
  p_description : option string;   (* TEXT, nullable *)
  p_price : Z;                     (* DECIMAL(10,2) NOT NULL, in hundredths *)
  p_category : option string;      (* VARCHAR(100), nullable *)
  p_sku : string
}.

Record CartRow := mkCartRow {
  c_id : Z;
  c_user_id : Z
}.

Record CartItemRow := mkCartItemRow {
  ci_id : Z;
  ci_cart_id : Z;
  ci_product_id : Z;
  ci_quantity : Z
}.

Record OrderRow := mkOrderRow {
  o_id : Z;
  o_user_id : Z;
  o_status : string;
  o_payment_method : string;
  o_total_amount : Z;
  o_currency : string;
  o_updated_at : Z                 (* TIMESTAMP, in seconds *)
}.

Record OrderItemRow := mkOrderItemRow {
  oi_id : Z;
  oi_order_id : Z;
  oi_product_id : Z;
  oi_quantity : Z;
  oi_price : Z
}.

Record Tables := mkTables {
  products : list ProductRow;
  carts : list CartRow;
  cart_items : list CartItemRow;
  orders : list OrderRow;
  order_items : list OrderItemRow
}.

(** AUTO_INCREMENT counters of the tables the services insert into. *)
Record AutoInc := mkAutoInc {
  next_cart_id : Z;
  next_cart_item_id : Z;
  next_order_id : Z;
  next_order_item_id : Z
}.

Record Store := mkStore {
  tables : Tables;
  autoinc : AutoInc
}.

(** ** internal/models *)

Record Product := mkProduct {
  Product_ID : Z;
  Product_Name : string;
  Product_Description : string;
  Product_Price : Z;
  Product_Category : string;
  Product_SKU : string
}.

Record Cart := mkCart {
  Cart_ID : Z;
  Cart_UserID : Z
}.

Record Order := mkOrder {
  Order_ID : Z;
  Order_UserID : Z;
  Order_Status : string;
  Order_PaymentMethod : string;
  Order_TotalAmount : Z;
  Order_Currency : string;
  Order_UpdatedAt : Z
}.

(** ** Errors, store faults and metric events *)

(** The errors the services build with [fmt.Errorf]; each constructor stands
    for one message. *)
Inductive Error :=
| ErrBeginTx            (* failed to begin transaction *)
| ErrGetCartItems       (* failed to get cart items *)
| ErrScanCartItem       (* failed to scan cart item *)
| ErrCartEmpty          (* cart is empty *)
| ErrCreateOrder        (* failed to create order *)
| ErrGetOrderID         (* failed to get order ID *)
| ErrCreateOrderItem    (* failed to create order item *)
| ErrCommit             (* failed to commit transaction *)
| ErrOrderNotFound      (* order not found *)
| ErrGetOrder           (* failed to get order *)
| ErrInvalidStatus (status : string)  (* invalid status: %s *)
| ErrUpdateOrderStatus  (* failed to update order status *)
| ErrRowsAffected       (* failed to get rows affected *)
| ErrProductNotFound    (* product not found *)
| ErrGetProduct         (* failed to get product *)
| ErrGetCart            (* failed to get cart *)
| ErrCreateCart         (* failed to create cart *)
| ErrGetCartID          (* failed to get cart ID *)
| ErrVerifyProduct      (* failed to verify product *)
| ErrCheckCartItem      (* failed to check cart item *)
| ErrAddItem            (* failed to add item to cart *)
| ErrUpdateCartItem.    (* failed to update cart item *)

Inductive Result (A : Type) :=
| Ok (a : A)
| Err (e : Error).
Arguments Ok {A} a.
Arguments Err {A} e.

(** The store calls of the services.  A fault oracle says for each whether
    the driver returns an error (other than [sql.ErrNoRows], which is
    decided by the tables).  For [CartNext i] the error is that of the
    i-th call of [rows.Next()] in the cart loop of CreateOrder, which ends
    the loop like the end of the result set.  In the two loops that skip a
    row whose scan fails ([CatScan], [ItemScan]) an iteration that ends
    early has the effect of a failed scan of every row not read, and is
    covered by the oracle in that form. *)
Inductive Call :=
(* CreateOrder *)
| BeginTx
| CartQuery
| CartNext (i : nat)
| CartScan (i : nat)
| CatQuery
| CatScan (i : nat)
| InsertOrder
| OrderLastInsertId
| InsertOrderItem (i : nat)
| CartIDQuery
| DeleteCartItems
| Commit
(* GetOrder *)
| GetOrderQuery
(* UpdateOrderStatus *)
| UpdateExec
| RowsAffected
| ItemQuery
| ItemScan (i : nat)
(* GetProduct *)
| ProductQuery
(* GetOrCreateCart, AddToCart, updateCartItemsCount *)
| CartSelect
| CartInsert
| CartLastInsertId
| ProductExists
| CartItemSelect
| CartItemInsert
| CartItemUpdate
| CountQuery
| UserQuery.

Definition Faults := Call -> bool.

Definition no_faults : Faults := fun _ => false.

Inductive Event :=
| OrdersCreated (count : Z) (order_status payment_method product_category : string)
| RevenueTotal (amount : Z) (currency payment_method product_category order_status : string)
| CacheHits
| CacheMisses
| ProductsViewed (product_id : Z) (product_category : string)
| CartItemsCount (count : Z) (user_id : Z).

(** ** Queries shared by the services *)

(** First row of a result set, as [QueryRow(...).Scan] reads it. *)
Definition first_row {A} (rows : list A) : option A := head rows.

(** SELECT ci.product_id, ci.quantity, p.price FROM cart_items ci
    JOIN products p ON ci.product_id = p.id JOIN carts c ON ci.cart_id = c.id
    WHERE c.user_id = ? *)
Definition cartQuery (t : Tables) (userID : Z) : list (Z * Z * Z) :=
  flat_map (fun ci =>
    flat_map (fun p =>
      flat_map (fun c => [(ci_product_id ci, ci_quantity ci, p_price p)])
        (List.filter (fun c => (ci_cart_id ci =? c_id c) && (c_user_id c =? userID)) (carts t)))
      (List.filter (fun p => ci_product_id ci =? p_id p) (products t)))
    (cart_items t).

(** SELECT id, ... FROM orders WHERE id = ? *)
Definition orderQueryByID (t : Tables) (orderID : Z) : list OrderRow :=
  List.filter (fun o => o_id o =? orderID) (orders t).

Definition order_of_row (o : OrderRow) : Order :=
  mkOrder (o_id o) (o_user_id o) (o_status o) (o_payment_method o)
          (o_total_amount o) (o_currency o) (o_updated_at o).

(** GetOrder (order.go): reads the committed tables. *)
Definition GetOrder (f : Faults) (t : Tables) (orderID : Z) : Result Order :=
  if f GetOrderQuery then Err ErrGetOrder
  else match first_row (orderQueryByID t orderID) with
       | None => Err ErrOrderNotFound
       | Some o => Ok (order_of_row o)
       end.

(** ** Transactions

    A statement run on a [*sql.Tx] sees and changes the transaction's
    private tables; the counters it draws ids from are shared.  A failed
    statement leaves both as they were. *)

Definition TxState : Type := Tables * AutoInc.

Definition Tx (A : Type) : Type := TxState -> Result A * TxState.

#[global] Instance Tx_ret : MRet Tx := fun A a s => (Ok a, s).

#[global] Instance Tx_bind : MBind Tx := fun A B k m s =>
  match m s with
  | (Ok a, s') => k a s'
  | (Err e, s') => (Err e, s')
  end.

Definition tx_fail {A} (e : Error) : Tx A := fun s => (Err e, s).

Definition tx_lift {A} (r : Result A) : Tx A := fun s => (r, s).

Definition tx_tables : Tx Tables := fun s => (Ok (fst s), s).

Definition set_carts (t : Tables) (l : list CartRow) : Tables :=
  mkTables (products t) l (cart_items t) (orders t) (order_items t).

Definition set_cart_items (t : Tables) (l : list CartItemRow) : Tables :=
  mkTables (products t) (carts t) l (orders t) (order_items t).

Definition set_orders (t : Tables) (l : list OrderRow) : Tables :=
  mkTables (products t) (carts t) (cart_items t) l (order_items t).

Definition set_order_items (t : Tables) (l : list OrderItemRow) : Tables :=
  mkTables (products t) (carts t) (cart_items t) (orders t) l.

Definition bump_order_id (a : AutoInc) : AutoInc :=
  mkAutoInc (next_cart_id a) (next_cart_item_id a) (next_order_id a + 1) (next_order_item_id a).

Definition bump_order_item_id (a : AutoInc) : AutoInc :=
  mkAutoInc (next_cart_id a) (next_cart_item_id a) (next_order_id a) (next_order_item_id a + 1).

Definition bump_cart_id (a : AutoInc) : AutoInc :=
  mkAutoInc (next_cart_id a + 1) (next_cart_item_id a) (next_order_id a) (next_order_item_id a).

Definition bump_cart_item_id (a : AutoInc) : AutoInc :=
  mkAutoInc (next_cart_id a) (next_cart_item_id a + 1) (next_order_id a) (next_order_item_id a).

(** ** CreateOrder (order.go) *)

(** The anonymous struct of the cart snapshot (lines 58-62). *)
Record CartLine := mkCartLine {
  ProductID : Z;
  Quantity : Z;
  Price : Z
}.

Record itemWithCategory := mkItemWithCategory {
  productID : Z;
  quantity : Z;
  price : Z;
  category : string
}.

(** The [rows.Next()] loop of lines 65-76: every row read is scanned,
    appended to [items] and added to [totalAmount]; a scan error returns
    at once.  [rows.Next()] returns false at the end of the result set and
    also when it meets an error; the function never reads [rows.Err()],
    so in the second case it goes on with the rows read so far. *)
Fixpoint scanCartRows (f : Faults) (i : nat) (rows : list (Z * Z * Z))
    (items : list CartLine) (totalAmount : Z) : Result (list CartLine * Z) :=
  if f (CartNext i) then Ok (items, totalAmount)
  else
    match rows with
    | [] => Ok (items, totalAmount)
    | (pid, qty, pr) :: rows' =>
        if f (CartScan i) then Err ErrScanCartItem
        else scanCartRows f (S i) rows' (items ++ [mkCartLine pid qty pr])
                          (totalAmount + pr * qty)
    end.

(** SELECT id, category FROM products WHERE id IN (...) *)
Definition catQuery (t : Tables) (productIDs : list Z) : list (Z * option string) :=
  map (fun p => (p_id p, p_category p))
      (List.filter (fun p => existsb (Z.eqb (p_id p)) productIDs) (products t)).

(** The [catRows.Next()] loop of lines 114-120: a row enters [categoryMap]
    only when its scan succeeds; a NULL category does not scan into a Go
    string. *)
Fixpoint scanCatRows (f : Faults) (i : nat) (rows : list (Z * option string))
    (categoryMap : gmap Z string) : gmap Z string :=
  match rows with
  | [] => categoryMap
  | (id, cat) :: rows' =>
      scanCatRows f (S i) rows'
        match cat with
        | Some c => if f (CatScan i) then categoryMap else <[id := c]> categoryMap
        | None => categoryMap
        end
  end.

(** Lines 106-122: the category read goes to [s.db], not to the
    transaction, and its error is not returned. *)
Definition lookupCategories (f : Faults) (db : Tables) (productIDs : list Z)
    : gmap Z string :=
  if f CatQuery then ∅ else scanCatRows f 0 (catQuery db productIDs) ∅.

(** Lines 125-136. *)
Definition withCategory (categoryMap : gmap Z string) (item : CartLine)
    : itemWithCategory :=
  let c := default "" (categoryMap !! ProductID item) in
  let c := if String.eqb c "" then "unknown" else c in
  mkItemWithCategory (ProductID item) (Quantity item) (Price item) c.

(** Lines 51-56. *)
Definition txCartQuery (f : Faults) (userID : Z) : Tx (list (Z * Z * Z)) :=
  if f CartQuery then tx_fail ErrGetCartItems
  else t ← tx_tables; mret (cartQuery t userID).

(** Lines 141-153: INSERT INTO orders ... VALUES (?, 'pending', ?, ?, ?)
    and [LastInsertId]; updated_at takes its default, CURRENT_TIMESTAMP. *)
Definition txInsertOrder (f : Faults) (now : Z) (userID : Z) (paymentMethod : string)
    (totalAmount : Z) (currency : string) : Tx Z :=
  if f InsertOrder then tx_fail ErrCreateOrder
  else fun '(t, a) =>
    let orderID := next_order_id a in
    let row := mkOrderRow orderID userID "pending" paymentMethod totalAmount currency
                 now in
    let s' := (set_orders t (orders t ++ [row]), bump_order_id a) in
    if f OrderLastInsertId then (Err ErrGetOrderID, s') else (Ok orderID, s').

(** Lines 156-165: one INSERT INTO order_items per snapshot line. *)
Fixpoint txInsertOrderItems (f : Faults) (i : nat) (orderID : Z)
    (items : list CartLine) : Tx unit :=
  match items with
  | [] => mret tt
  | item :: items' =>
      if f (InsertOrderItem i) then tx_fail ErrCreateOrderItem
      else fun '(t, a) =>
        let row := mkOrderItemRow (next_order_item_id a) orderID
                     (ProductID item) (Quantity item) (Price item) in
        txInsertOrderItems f (S i) orderID items'
          (set_order_items t (order_items t ++ [row]), bump_order_item_id a)
  end.

(** Lines 167-176: the cart id is read with [QueryRow]; the DELETE runs
    only when that read gave no error, and neither error is returned:
    [err] is overwritten by the result of [tx.Commit()] at line 179. *)
Definition txClearCart (f : Faults) (userID : Z) : Tx unit :=
  fun '(t, a) =>
    let found := first_row (List.filter (fun c => c_user_id c =? userID) (carts t)) in
    match (if f CartIDQuery then None else found) with
    | None => (Ok tt, (t, a))
    | Some c =>
        if f DeleteCartItems then (Ok tt, (t, a))
        else (Ok tt, (set_cart_items t
                (List.filter (fun ci => negb (ci_cart_id ci =? c_id c)) (cart_items t)), a))
    end.

(** Lines 196-202 (and 351-367 of UpdateOrderStatus): one more line for a
    category. *)
Definition addLine (acc : gmap string Z * gmap string Z) (cat : string) (amount : Z)
    : gmap string Z * gmap string Z :=
  (<[cat := default 0 (acc.1 !! cat) + amount]> acc.1,
   <[cat := default 0 (acc.2 !! cat) + 1]> acc.2).

Definition categoryTotals (items : list itemWithCategory)
    : gmap string Z * gmap string Z :=
  fold_left (fun acc item => addLine acc (category item) (price item * quantity item))
            items (∅, ∅).

(** Lines 207-233 (and 370-394): for every key of [categoryOrders], one
    OrdersCreated and one RevenueTotal event.  Go ranges over a map in no
    fixed order; the order of [map_to_list] stands for it, and nothing
    below relies on it. *)
Definition recordCategoryMetrics (order_status payment_method currency : string)
    (totals : gmap string Z * gmap string Z) : list Event :=
  flat_map (fun '(cat, orderCount) =>
      [OrdersCreated orderCount order_status payment_method cat;
       RevenueTotal (default 0 (totals.1 !! cat)) currency payment_method cat order_status])
    (map_to_list totals.2).

(** Lines 43-176: what runs between [BeginTx] and [Commit]. *)
Definition createOrderTx (f : Faults) (now : Z) (db : Tables) (userID : Z)
    (paymentMethod currency : string) : Tx (Z * Z * list itemWithCategory) :=
  rows ← txCartQuery f userID;
  '(items, totalAmount) ← tx_lift (scanCartRows f 0 rows [] 0);
  if (length items =? 0)%nat then tx_fail ErrCartEmpty
  else
    let categoryMap := lookupCategories f db (map ProductID items) in
    let itemsWithCategories := map (withCategory categoryMap) items in
    orderID ← txInsertOrder f now userID paymentMethod totalAmount currency;
    _ ← txInsertOrderItems f 0 orderID items;
    _ ← txClearCart f userID;
    mret (orderID, totalAmount, itemsWithCategories).

(** [defer tx.Rollback()]: unless the commit went through, the committed
    tables stay as they were. *)
Definition rollback (st : Store) (s : TxState) : Store :=
  mkStore (tables st) (snd s).

Definition CreateOrder (f : Faults) (now : Z) (st : Store) (userID : Z)
    (paymentMethod currency : string) : Result Order * Store * list Event :=
  if f BeginTx then (Err ErrBeginTx, st, [])
  else
    match createOrderTx f now (tables st) userID paymentMethod currency
            (tables st, autoinc st) with
    | (Err e, s) => (Err e, rollback st s, [])
    | (Ok (orderID, totalAmount, itemsWithCategories), s) =>
        if f Commit then (Err ErrCommit, rollback st s, [])
        else
          let st' := mkStore (fst s) (snd s) in
          match GetOrder f (tables st') orderID with
          | Err e => (Err e, st', [])
          | Ok order =>
              (Ok order, st',
               recordCategoryMetrics (Order_Status order) paymentMethod currency
                 (categoryTotals itemsWithCategories))
          end
    end.

(** ** UpdateOrderStatus (order.go) *)

Definition validStatuses : gmap string bool :=
  <["pending" := true]> (<["processing" := true]> (<["completed" := true]>
  (<["cancelled" := true]> (<["shipped" := true]> (<["delivered" := true]> ∅))))).

(** UPDATE orders SET status = ?, updated_at = NOW() WHERE id = ? *)
Definition set_status (status : string) (now : Z) (o : OrderRow) : OrderRow :=
  mkOrderRow (o_id o) (o_user_id o) status (o_payment_method o)
             (o_total_amount o) (o_currency o) now.

(** The DSN of config.go does not set clientFoundRows, so [RowsAffected]
    is the number of rows the UPDATE changed, not the number the WHERE
    clause matched: a row that already has the status and was written in
    the same second is not counted. *)
Definition changed_by (status : string) (now : Z) (o : OrderRow) : bool :=
  negb (String.eqb (o_status o) status && (o_updated_at o =? now)).

(** The tables after the UPDATE and its [RowsAffected], which the service
    reads as "order not found" when it is 0. *)
Definition updateStatusExec (t : Tables) (status : string) (now : Z) (orderID : Z)
    : Tables * Z :=
  (set_orders t
     (map (fun o => if o_id o =? orderID then set_status status now o else o) (orders t)),
   Z.of_nat (length (List.filter (changed_by status now) (orderQueryByID t orderID)))).

(** SELECT oi.product_id, oi.quantity, oi.price, p.category
    FROM order_items oi JOIN products p ON oi.product_id = p.id
    WHERE oi.order_id = ? *)
Definition itemQuery (t : Tables) (orderID : Z) : list (Z * Z * Z * option string) :=
  flat_map (fun oi =>
      map (fun p => (oi_product_id oi, oi_quantity oi, oi_price oi, p_category p))
          (List.filter (fun p => oi_product_id oi =? p_id p) (products t)))
    (List.filter (fun oi => oi_order_id oi =? orderID) (order_items t)).

(** The [itemRows.Next()] loop of lines 354-367: a row whose scan fails is
    logged and skipped ([continue]); a NULL category does not scan. *)
Fixpoint scanItemRows (f : Faults) (i : nat) (rows : list (Z * Z * Z * option string))
    (acc : gmap string Z * gmap string Z) : gmap string Z * gmap string Z :=
  match rows with
  | [] => acc
  | (_, qty, pr, cat) :: rows' =>
      scanItemRows f (S i) rows'
        match cat with
        | Some c => if f (ItemScan i) then acc else addLine acc c (pr * qty)
        | None => acc
        end
  end.

(** The statement runs on [s.db] outside any transaction, so its effect is
    committed as soon as it succeeds.  [None] is Go's [nil] error. *)
Definition UpdateOrderStatus (f : Faults) (now : Z) (st : Store) (orderID : Z)
    (status : string) : option Error * Store * list Event :=
  if negb (default false (validStatuses !! status))
  then (Some (ErrInvalidStatus status), st, [])
  else if f UpdateExec then (Some ErrUpdateOrderStatus, st, [])
  else
    let '(t', rowsAffected) := updateStatusExec (tables st) status now orderID in
    let st' := mkStore t' (autoinc st) in
    if f RowsAffected then (Some ErrRowsAffected, st', [])
    else if rowsAffected =? 0 then (Some ErrOrderNotFound, st', [])
    else if String.eqb status "completed" then
      match GetOrder f t' orderID with
      | Err _ => (None, st', [])
      | Ok order =>
          if f ItemQuery then (None, st', [])
          else (None, st',
                recordCategoryMetrics "completed" (Order_PaymentMethod order)
                  (Order_Currency order)
                  (scanItemRows f 0 (itemQuery t' orderID) (∅, ∅)))
      end
    else (None, st', []).

(** ** ProductCache and GetProduct (product.go) *)

Record cachedProduct := mkCachedProduct {
  product : Product;
  expires : Z            (* time.Time, in nanoseconds *)
}.

(** 5 * time.Minute *)
Definition cacheTTL : Z := 5 * 60 * 1000000000.

(** Line 80: [cached, exists := items[id]; exists && now.Before(cached.expires)] *)
Definition cacheGet (items : gmap Z cachedProduct) (now : Z) (id : Z) : option Product :=
  match items !! id with
  | Some cached => if now <? expires cached then Some (product cached) else None
  | None => None
  end.

(** Lines 119-124: [items[id] = cachedProduct{p, now.Add(5 * time.Minute)}] *)
Definition cachePut (items : gmap Z cachedProduct) (now : Z) (id : Z) (p : Product)
    : gmap Z cachedProduct :=
  <[id := mkCachedProduct p (now + cacheTTL)]> items.

(** [Scan] into the string fields of models.Product fails on NULL. *)
Definition scanProduct (r : ProductRow) : option Product :=
  match p_description r, p_category r with
  | Some d, Some c => Some (mkProduct (p_id r) (p_name r) d (p_price r) c (p_sku r))
  | _, _ => None
  end.

(** [now] is the clock at the cache check, [now'] at the store into the
    cache.  The map is read and written under the RWMutex, one operation
    at a time. *)
Definition GetProduct (f : Faults) (t : Tables) (items : gmap Z cachedProduct)
    (now now' : Z) (id : Z) : Result Product * gmap Z cachedProduct * list Event :=
  match cacheGet items now id with
  | Some p => (Ok p, items, [CacheHits; ProductsViewed id (Product_Category p)])
  | None =>
      if f ProductQuery then (Err ErrGetProduct, items, [CacheMisses])
      else
        match first_row (List.filter (fun r => p_id r =? id) (products t)) with
        | None => (Err ErrProductNotFound, items, [CacheMisses])
        | Some r =>
            match scanProduct r with
            | None => (Err ErrGetProduct, items, [CacheMisses])
            | Some p =>
                (Ok p, cachePut items now' id p,
                 [CacheMisses; ProductsViewed id (Product_Category p)])
            end
        end
  end.

(** ** Cart service *)

(** SELECT ... FROM carts WHERE user_id = ? LIMIT 1, else INSERT INTO carts. *)
Definition GetOrCreateCart (f : Faults) (st : Store) (userID : Z)
    : Result Cart * Store :=
  if f CartSelect then (Err ErrGetCart, st)
  else
    match first_row (List.filter (fun c => c_user_id c =? userID) (carts (tables st))) with
    | Some c => (Ok (mkCart (c_id c) (c_user_id c)), st)
    | None =>
        if f CartInsert then (Err ErrCreateCart, st)
        else
          let id := next_cart_id (autoinc st) in
          let st' := mkStore (set_carts (tables st)
                                (carts (tables st) ++ [mkCartRow id userID]))
                             (bump_cart_id (autoinc st)) in
          if f CartLastInsertId then (Err ErrGetCartID, st')
          else (Ok (mkCart id userID), st')
    end.

(** updateCartItemsCount: the gauge is recorded only when both reads
    succeed. *)
Definition updateCartItemsCount (f : Faults) (t : Tables) (cartID : Z) : list Event :=
  if f CountQuery then []
  else
    let count := Z.of_nat (length (List.filter (fun ci => ci_cart_id ci =? cartID)
                                               (cart_items t))) in
    if f UserQuery then []
    else match first_row (List.filter (fun c => c_id c =? cartID) (carts t)) with
         | None => []
         | Some c => [CartItemsCount count (c_user_id c)]
         end.

(** SELECT id, quantity FROM cart_items WHERE cart_id = ? AND product_id = ? *)
Definition checkQuery (t : Tables) (cartID productID : Z) : list CartItemRow :=
  List.filter (fun ci => (ci_cart_id ci =? cartID) && (ci_product_id ci =? productID))
              (cart_items t).

(** UPDATE cart_items SET quantity = quantity + ? ... WHERE id = ? *)
Definition add_quantity (d : Z) (ci : CartItemRow) : CartItemRow :=
  mkCartItemRow (ci_id ci) (ci_cart_id ci) (ci_product_id ci) (ci_quantity ci + d).

Definition AddToCart (f : Faults) (st : Store) (userID productID quantity : Z)
    : option Error * Store * list Event :=
  match GetOrCreateCart f st userID with
  | (Err e, st1) => (Some e, st1, [])
  | (Ok cart, st1) =>
      let t := tables st1 in
      if f ProductExists then (Some ErrVerifyProduct, st1, [])
      else if negb (existsb (fun p => p_id p =? productID) (products t))
      then (Some ErrProductNotFound, st1, [])
      else if f CartItemSelect then (Some ErrCheckCartItem, st1, [])
      else
        match first_row (checkQuery t (Cart_ID cart) productID) with
        | None =>
            if f CartItemInsert then (Some ErrAddItem, st1, [])
            else
              let row := mkCartItemRow (next_cart_item_id (autoinc st1))
                           (Cart_ID cart) productID quantity in
              let st2 := mkStore (set_cart_items t (cart_items t ++ [row]))
                                 (bump_cart_item_id (autoinc st1)) in
              (None, st2, updateCartItemsCount f (tables st2) (Cart_ID cart))
        | Some existing =>
            if f CartItemUpdate then (Some ErrUpdateCartItem, st1, [])
            else
              let st2 := mkStore
                (set_cart_items t
                   (map (fun ci => if ci_id ci =? ci_id existing
                                   then add_quantity quantity ci else ci)
                        (cart_items t)))
                (autoinc st1) in
              (None, st2, updateCartItemsCount f (tables st2) (Cart_ID cart))
        end
  end.

(** * The remaining functions of the services *)

(** ** Results, errors and store calls *)

(** The errors of the functions below that [Error] does not list. *)
Inductive SvcError :=
| ErrRemoveItem         (* failed to remove item from cart *)
| ErrQueryOrders        (* failed to query orders *)
| ErrScanOrder          (* failed to scan order *)
| ErrQueryProducts      (* failed to query products *)
| ErrScanProduct        (* failed to scan product *)
| ErrRows               (* the error [rows.Err()] reports *)
| Svc (e : Error).

(** The store calls of the functions below, beside those of [Call]. *)
Inductive SvcCall :=
| Base (c : Call)
(* RemoveFromCart *)
| RemoveExec
(* GetCart *)
| GetCartQuery
| GetCartNext (i : nat)
| GetCartScan (i : nat)
(* ListUserOrders *)
| ListOrdersQuery
| ListOrdersNext (i : nat)
| ListOrdersScan (i : nat)
(* ListProducts *)
| ListProductsQuery
| ListProductsNext (i : nat)
| ListProductsScan (i : nat).

Definition SvcFaults := SvcCall -> bool.

Definition base (g : SvcFaults) : Faults := fun c => g (Base c).

Definition no_svc_faults : SvcFaults := fun _ => false.

(** A [for rows.Next() { rows.Scan(...) }] loop over a result set: [next i]
    says that the i-th call of [rows.Next()] stops the iteration with an
    error (which [rows.Err()] then reports), [scan i] that the scan of the
    i-th row fails.  The loop gives the values read and whether the
    iteration ended by an error, or [None] when a scan failed. *)
Fixpoint scanRows {R A} (next scan : nat -> bool) (read : R -> option A)
    (i : nat) (rows : list R) (acc : list A) : option (list A * bool) :=
  if next i then Some (acc, true)
  else
    match rows with
    | [] => Some (acc, false)
    | r :: rows' =>
        if scan i then None
        else match read r with
             | None => None
             | Some a => scanRows next scan read (S i) rows' (acc ++ [a])
             end
    end.

(** ** Cart service: RemoveFromCart and GetCart *)

Record CartItem := mkCartItem {
  CartItem_ID : Z;
  CartItem_CartID : Z;
  CartItem_ProductID : Z;
  CartItem_Quantity : Z
}.

(** models.CartResponse without its Total, the float64 sum of
    price × quantity over the items, which is returned as computed and
    never stored. *)
Record CartResponse := mkCartResponse {
  CartResponse_Cart : Cart;
  CartResponse_Items : list CartItem
}.

(** DELETE FROM cart_items WHERE cart_id = ? AND product_id = ? *)
Definition removeExec (t : Tables) (cartID productID : Z) : Tables :=
  set_cart_items t
    (List.filter (fun ci => negb ((ci_cart_id ci =? cartID) && (ci_product_id ci =? productID)))
                 (cart_items t)).

Definition RemoveFromCart (g : SvcFaults) (st : Store) (userID productID : Z)
    : option SvcError * Store * list Event :=
  match GetOrCreateCart (base g) st userID with
  | (Err e, st1) => (Some (Svc e), st1, [])
  | (Ok cart, st1) =>
      if g RemoveExec then (Some ErrRemoveItem, st1, [])
      else
        let st2 := mkStore (removeExec (tables st1) (Cart_ID cart) productID) (autoinc st1) in
        (None, st2, updateCartItemsCount (base g) (tables st2) (Cart_ID cart))
  end.

(** SELECT ci.id, ci.cart_id, ci.product_id, ci.quantity, ..., p.price
    FROM cart_items ci JOIN products p ON ci.product_id = p.id
    WHERE ci.cart_id = ? *)
Definition getCartQuery (t : Tables) (cartID : Z) : list (CartItemRow * Z) :=
  flat_map (fun ci =>
      map (fun p => (ci, p_price p))
          (List.filter (fun p => ci_product_id ci =? p_id p) (products t)))
    (List.filter (fun ci => ci_cart_id ci =? cartID) (cart_items t)).

Definition cartItem_of_row (ci : CartItemRow) : CartItem :=
  mkCartItem (ci_id ci) (ci_cart_id ci) (ci_product_id ci) (ci_quantity ci).

(** GetCart returns the response together with [rows.Err()]; a scan error
    returns before the gauge is updated. *)
Definition GetCart (g : SvcFaults) (st : Store) (userID : Z)
    : option CartResponse * option SvcError * Store * list Event :=
  match GetOrCreateCart (base g) st userID with
  | (Err e, st1) => (None, Some (Svc e), st1, [])
  | (Ok cart, st1) =>
      if g GetCartQuery then (None, Some (Svc ErrGetCartItems), st1, [])
      else
        match scanRows (fun i => g (GetCartNext i)) (fun i => g (GetCartScan i))
                (fun r : CartItemRow * Z => Some (cartItem_of_row r.1))
                0 (getCartQuery (tables st1) (Cart_ID cart)) [] with
        | None => (None, Some (Svc ErrScanCartItem), st1, [])
        | Some (items, rowsErr) =>
            (Some (mkCartResponse cart items),
             (if rowsErr then Some ErrRows else None),
             st1,
             updateCartItemsCount (base g) (tables st1) (Cart_ID cart))
        end
  end.

(** ** Order service: ListUserOrders *)

(** SELECT ... FROM orders WHERE user_id = ? ORDER BY created_at DESC.
    The creation times are not part of the model: [by_created_at] stands
    for the order in which the store returns the rows. *)
Definition ListUserOrders (by_created_at : list OrderRow -> list OrderRow)
    (g : SvcFaults) (t : Tables) (userID : Z) : list Order * option SvcError :=
  if g ListOrdersQuery then ([], Some ErrQueryOrders)
  else
    match scanRows (fun i => g (ListOrdersNext i)) (fun i => g (ListOrdersScan i))
            (fun o => Some (order_of_row o))
            0 (by_created_at (List.filter (fun o => o_user_id o =? userID) (orders t))) [] with
    | None => ([], Some ErrScanOrder)
    | Some (os, rowsErr) => (os, if rowsErr then Some ErrRows else None)
    end.

(** ** Product service: ListProducts *)

(** SELECT ... FROM products LIMIT ? OFFSET ?, rows in table order.  MySQL
    rejects a negative LIMIT or OFFSET argument. *)
Definition ListProducts (g : SvcFaults) (t : Tables) (limit offset : Z)
    : list Product * option SvcError :=
  if (limit <? 0) || (offset <? 0) || g ListProductsQuery then ([], Some ErrQueryProducts)
  else
    match scanRows (fun i => g (ListProductsNext i)) (fun i => g (ListProductsScan i))
            scanProduct
            0 (firstn (Z.to_nat limit) (skipn (Z.to_nat offset) (products t))) [] with
    | None => ([], Some ErrScanProduct)
    | Some (ps, rowsErr) => (ps, if rowsErr then Some ErrRows else None)
    end.

(** ** Handlers (internal/api/handlers.go) *)

(** strconv.ParseInt(s, 10, 64): an optional sign, then one or more decimal
    digits whose value fits a signed 64-bit integer; anything else is an
    error ([None]). *)
Definition digitValue (a : Ascii.ascii) : option Z :=
  let n := Z.of_nat (Ascii.nat_of_ascii a) in
  if (48 <=? n) && (n <=? 57) then Some (n - 48) else None.

Fixpoint parseDigits (s : string) (n : Z) : option Z :=
  match s with
  | EmptyString => Some n
  | String a s' =>
      match digitValue a with
      | Some d => parseDigits s' (10 * n + d)
      | None => None
      end
  end.

Definition ParseInt (s : string) : option Z :=
  match s with
  | EmptyString => None
  | String a s' =>
      let '(neg, ds) :=
        if Ascii.eqb a "+"%char then (false, s')
        else if Ascii.eqb a "-"%char then (true, s')
        else (false, s) in
      match ds with
      | EmptyString => None
      | String _ _ =>
          match parseDigits ds 0 with
          | None => None
          | Some un =>
              if neg then (if un <=? 2 ^ 63 then Some (- un) else None)
              else (if un <? 2 ^ 63 then Some un else None)
          end
      end
  end.

(** The user id of a request: the [user_id] query parameter ("" when it is
    absent) when it parses, else 1. *)
Definition userIDParam (uid : string) : Z :=
  if String.eqb uid "" then 1
  else match ParseInt uid with
       | Some parsed => parsed
       | None => 1
       end.

Inductive Body :=
| BodyText (text : string)      (* http.Error with a fixed text *)
| BodyError (e : Error)         (* http.Error(w, err.Error(), code) *)
| BodyStatus (label : string)   (* {"status": label} *)
| BodyOrder (o : Order).

Record Response := mkResponse {
  StatusCode : Z;
  ResponseBody : Body
}.

Record CreateOrderRequest := mkCreateOrderRequest {
  Request_PaymentMethod : string;
  Request_Currency : string
}.

Record AddToCartRequest := mkAddToCartRequest {
  Request_ProductID : Z;
  Request_Quantity : Z
}.

(** [body] is the decoded JSON body, [None] when decoding fails.  The
    handler tells the empty cart from the other errors by the error text;
    no other error of CreateOrder reads "cart is empty". *)
Definition CreateOrderHandler (f : Faults) (now : Z) (st : Store) (user_id : string)
    (body : option CreateOrderRequest) : Response * Store * list Event :=
  match body with
  | None => (mkResponse 400 (BodyText "Invalid request body"), st, [])
  | Some req =>
      let currency := if String.eqb (Request_Currency req) "" then "USD"
                      else Request_Currency req in
      let paymentMethod := if String.eqb (Request_PaymentMethod req) "" then "credit_card"
                           else Request_PaymentMethod req in
      match CreateOrder f now st (userIDParam user_id) paymentMethod currency with
      | (Err e, st', evs) =>
          (mkResponse (match e with ErrCartEmpty => 400 | _ => 500 end) (BodyError e),
           st', evs)
      | (Ok order, st', evs) => (mkResponse 201 (BodyOrder order), st', evs)
      end
  end.

(** [id] is the path variable, [body] the decoded status ([None] when the
    body does not decode). *)
Definition UpdateOrderStatusHandler (f : Faults) (now : Z) (st : Store) (id : string)
    (body : option string) : Response * Store * list Event :=
  match ParseInt id with
  | None => (mkResponse 400 (BodyText "Invalid order ID"), st, [])
  | Some orderID =>
      match body with
      | None => (mkResponse 400 (BodyText "Invalid request body"), st, [])
      | Some status =>
          match UpdateOrderStatus f now st orderID status with
          | (Some e, st', evs) => (mkResponse 500 (BodyError e), st', evs)
          | (None, st', evs) => (mkResponse 200 (BodyStatus "updated"), st', evs)
          end
      end
  end.

Definition AddToCartHandler (f : Faults) (st : Store) (user_id : string)
    (body : option AddToCartRequest) : Response * Store * list Event :=
  match body with
  | None => (mkResponse 400 (BodyText "Invalid request body"), st, [])
  | Some req =>
      match AddToCart f st (userIDParam user_id) (Request_ProductID req)
              (Request_Quantity req) with
      | (Some e, st', evs) =>
          (mkResponse (match e with ErrProductNotFound => 404 | _ => 500 end) (BodyError e),
           st', evs)
      | (None, st', evs) => (mkResponse 200 (BodyStatus "added"), st', evs)
      end
  end.

(** * Vocabulary of the statements *)

(** ** Notions used in the statements *)

Definition sumZ (l : list Z) : Z := fold_right Z.add 0 l.

(** price × quantity of a snapshot row *)
Definition rowAmount (r : Z * Z * Z) : Z :=
  let '(_, qty, pr) := r in pr * qty.

Definition snapshotTotal (rows : list (Z * Z * Z)) : Z := sumZ (map rowAmount rows).

Definition lineOfRow (r : Z * Z * Z) : CartLine :=
  let '(pid, qty, pr) := r in mkCartLine pid qty pr.

(** The order_items rows inserted for a snapshot, ids counted from [start]. *)
Fixpoint orderItemRows (start orderID : Z) (items : list CartLine) : list OrderItemRow :=
  match items with
  | [] => []
  | item :: items' =>
      mkOrderItemRow start orderID (ProductID item) (Quantity item) (Price item)
        :: orderItemRows (start + 1) orderID items'
  end.

(** The rows of the cart result set that the loop of CreateOrder reads:
    all of them, unless [rows.Next()] ends the iteration before. *)
Fixpoint rowsRead (f : Faults) (i : nat) (rows : list (Z * Z * Z)) : list (Z * Z * Z) :=
  if f (CartNext i) then []
  else
    match rows with
    | [] => []
    | r :: rows' => r :: rowsRead f (S i) rows'
    end.

(** The snapshot CreateOrder works with. *)
Definition snapshot (f : Faults) (t : Tables) (userID : Z) : list (Z * Z * Z) :=
  rowsRead f 0 (cartQuery t userID).

(** The cart_items rows that sit in a cart of the user. *)
Definition user_cart_items (t : Tables) (userID : Z) : list CartItemRow :=
  List.filter (fun ci =>
      existsb (fun c => (ci_cart_id ci =? c_id c) && (c_user_id c =? userID)) (carts t))
    (cart_items t).

Definition revenueAmounts (evs : list Event) : list Z :=
  flat_map (fun e => match e with RevenueTotal amount _ _ _ _ => [amount] | _ => [] end) evs.

Definition revenueCategories (evs : list Event) : list string :=
  flat_map (fun e => match e with RevenueTotal _ _ _ cat _ => [cat] | _ => [] end) evs.

Definition orderCounts (evs : list Event) : list Z :=
  flat_map (fun e => match e with OrdersCreated n _ _ _ => [n] | _ => [] end) evs.

(** The cart_items table after the clear step: untouched when the cart id
    read found no row or gave an error, or when the DELETE gave one; else
    without the rows of the cart that the read returned. *)
Definition clearedItems (f : Faults) (cs : list CartRow) (cis : list CartItemRow)
    (userID : Z) : list CartItemRow :=
  match (if f CartIDQuery then None
         else first_row (List.filter (fun c => c_user_id c =? userID) cs)) with
  | None => cis
  | Some c =>
      if f DeleteCartItems then cis
      else List.filter (fun ci => negb (ci_cart_id ci =? c_id c)) cis
  end.

(** Ids handed out by AUTO_INCREMENT are above every id in the table. *)
Definition orders_fresh (st : Store) : Prop :=
  Forall (fun o => o_id o < next_order_id (autoinc st)) (orders (tables st)).

(** Every order item belongs to an order that was inserted before (the
    foreign key of order_items). *)
Definition order_items_fresh (st : Store) : Prop :=
  Forall (fun oi => oi_order_id oi < next_order_id (autoinc st)) (order_items (tables st)).

(** The six status labels UpdateOrderStatus accepts. *)
Definition recognized : list string :=
  ["pending"; "processing"; "completed"; "cancelled"; "shipped"; "delivered"].

(** The (category, amount) lines that a loop feeds to [addLine]. *)
Definition aggregateFrom (acc : gmap string Z * gmap string Z)
    (lines : list (string * Z)) : gmap string Z * gmap string Z :=
  fold_left (fun acc l => addLine acc l.1 l.2) lines acc.

Definition linesOfItems (items : list itemWithCategory) : list (string * Z) :=
  map (fun it => (category it, price it * quantity it)) items.





Definition orderItemsOf (t : Tables) (orderID : Z) : list OrderItemRow :=
  List.filter (fun oi => oi_order_id oi =? orderID) (order_items t).

(** Sum of price × quantity over the order's items, at the prices stored
    in order_items. *)
Definition orderItemsTotal (t : Tables) (orderID : Z) : Z :=
  sumZ (map (fun oi => oi_price oi * oi_quantity oi) (orderItemsOf t orderID)).




(** Two fault oracles that differ at most on the category read. *)
Definition same_but_categories (f f' : Faults) : Prop :=
  forall c, match c with CatQuery | CatScan _ => True | _ => f c = f' c end.

(** ** Concrete stores and fault oracles *)

Definition demo_products : list ProductRow :=
  [mkProductRow 1 "Laptop" (Some "High-performance laptop") 99999 (Some "Electronics") "LAP-001";
   mkProductRow 8 "T-Shirt" (Some "Cotton t-shirt") 1999 (Some "Clothing") "TSH-001";
   mkProductRow 9 "Sample" None 999 None "SMP-001"].

(** User 7 has one cart holding two laptops and three T-shirts; user 9 has
    a cart without items. *)
Definition demo_store : Store :=
  mkStore
    (mkTables demo_products
       [mkCartRow 1 7; mkCartRow 2 9]
       [mkCartItemRow 1 1 1 2; mkCartItemRow 2 1 8 3]
       [] [])
    (mkAutoInc 3 3 1 1).

(** User 7 owns two cart rows, each with one line. *)
Definition two_carts_store : Store :=
  mkStore
    (mkTables demo_products
       [mkCartRow 1 7; mkCartRow 2 7]
       [mkCartItemRow 1 1 1 2; mkCartItemRow 2 2 8 3]
       [] [])
    (mkAutoInc 3 3 1 1).

Definition fail_at_delete : Faults :=
  fun c => match c with DeleteCartItems => true | _ => false end.

Definition fail_at_cart_id : Faults :=
  fun c => match c with CartIDQuery => true | _ => false end.

Definition fail_at_second_item : Faults :=
  fun c => match c with InsertOrderItem 1 => true | _ => false end.

(** [rows.Next()] ends the cart loop of CreateOrder after the first row. *)
Definition stop_after_first_row : Faults :=
  fun c => match c with CartNext 1 => true | _ => false end.

(** The outcome of CreateOrder for user 7 on [demo_store], at second 100. *)
Definition demo_order : Order := mkOrder 1 7 "pending" "paypal" 205995 "USD" 100.

Definition demo_store_after : Store :=
  mkStore
    (mkTables demo_products
       [mkCartRow 1 7; mkCartRow 2 9]
       []
       [mkOrderRow 1 7 "pending" "paypal" 205995 "USD" 100]
       [mkOrderItemRow 1 1 1 2 99999; mkOrderItemRow 2 1 8 3 1999])
    (mkAutoInc 3 3 2 3).

Definition demo_events : list Event :=
  [OrdersCreated 1 "pending" "paypal" "Clothing";
   RevenueTotal 5997 "USD" "paypal" "Clothing" "pending";
   OrdersCreated 1 "pending" "paypal" "Electronics";
   RevenueTotal 199998 "USD" "paypal" "Electronics" "pending"].

Definition demo_laptop : Product :=
  mkProduct 1 "Laptop" "High-performance laptop" 99999 "Electronics" "LAP-001".

(** User 7's cart holds two laptops and three samples; the sample has no
    category in the catalog. *)
Definition sample_cart_store : Store :=
  mkStore
    (mkTables demo_products
       [mkCartRow 1 7]
       [mkCartItemRow 1 1 1 2; mkCartItemRow 2 1 9 3]
       [] [])
    (mkAutoInc 2 3 1 1).

Definition fail_at_category_query : Faults :=
  fun c => match c with CatQuery => true | _ => false end.

(** ** Notions of the further properties *)

(** No user owns two cart rows. *)
Definition single_cart_per_user (t : Tables) : Prop :=
  forall userID,
    Nat.le (length (List.filter (fun c => c_user_id c =? userID) (carts t))) 1.

Definition cart_pair (ci : CartItemRow) : Z * Z := (ci_cart_id ci, ci_product_id ci).

(** No (cart, product) pair has two cart_items rows. *)
Definition cart_pairs_unique (t : Tables) : Prop :=
  NoDup (map cart_pair (cart_items t)).

(** The primary key of cart_items. *)
Definition cart_item_ids_unique (t : Tables) : Prop :=
  NoDup (map ci_id (cart_items t)).

(** The cart_items rows outside a (cart, product) pair. *)
Definition other_cart_items (t : Tables) (cartID productID : Z) : list CartItemRow :=
  List.filter (fun ci => negb ((ci_cart_id ci =? cartID) && (ci_product_id ci =? productID)))
              (cart_items t).

(** Every cache entry holds the product of its key. *)
Definition cache_ids_match (items : gmap Z cachedProduct) : Prop :=
  forall id e, items !! id = Some e -> Product_ID (product e) = id.


Fixpoint all_digits (s : string) : bool :=
  match s with
  | EmptyString => true
  | String a s' =>
      match digitValue a with Some _ => all_digits s' | None => false end
  end.

(** Every catalog row scans into a models.Product. *)
Definition products_scan (t : Tables) : Prop :=
  Forall (fun r => is_Some (scanProduct r)) (products t).

Definition fail_at_reread : Faults :=
  fun c => match c with GetOrderQuery => true | _ => false end.

(** [demo_store] after user 7 added three more laptops. *)
Definition demo_store_added : Store :=
  mkStore
    (mkTables demo_products
       [mkCartRow 1 7; mkCartRow 2 9]
       [mkCartItemRow 1 1 1 5; mkCartItemRow 2 1 8 3]
       [] [])
    (mkAutoInc 3 3 1 1).

(** The primary key of orders. *)
Definition order_ids_unique (t : Tables) : Prop := NoDup (map o_id (orders t)).

(** The three facts AUTO_INCREMENT and the foreign key of order_items
    give about orders. *)
Definition orders_wf (st : Store) : Prop :=
  orders_fresh st /\ order_items_fresh st /\ order_ids_unique (tables st).

(** [demo_store_after] with order 1 shipped at second 200. *)
Definition demo_store_shipped : Store :=
  mkStore
    (mkTables demo_products
       [mkCartRow 1 7; mkCartRow 2 9]
       []
       [mkOrderRow 1 7 "shipped" "paypal" 205995 "USD" 200]
       [mkOrderItemRow 1 1 1 2 99999; mkOrderItemRow 2 1 8 3 1999])
    (mkAutoInc 3 3 2 3).

(** An optional sign followed by at least one decimal digit. *)
Definition decimal_form (s : string) : bool :=
  match s with
  | EmptyString => false
  | String a s' =>
      if Ascii.eqb a "+"%char || Ascii.eqb a "-"%char
      then match s' with EmptyString => false | String _ _ => all_digits s' end
      else all_digits s
  end.

(** The currency and payment method CreateOrderHandler passes on. *)
Definition currencyOf (req : CreateOrderRequest) : string :=
  if String.eqb (Request_Currency req) "" then "USD" else Request_Currency req.

Definition paymentMethodOf (req : CreateOrderRequest) : string :=
  if String.eqb (Request_PaymentMethod req) "" then "credit_card"
  else Request_PaymentMethod req.

(** * Properties *)

(** ** The transaction monad *)

Lemma tx_bind_ok {A B} (m : Tx A) (k : A -> Tx B) s b s' :
  (m ≫= k) s = (Ok b, s') ->
  exists a s1, m s = (Ok a, s1) /\ k a s1 = (Ok b, s').
Proof.
  unfold mbind, Tx_bind. destruct (m s) as [[a|e] s1]; intros H.
  - exists a, s1. auto.
  - discriminate.
Qed.

Lemma tx_bind_step {A B} (m : Tx A) (k : A -> Tx B) s a s1 :
  m s = (Ok a, s1) -> (m ≫= k) s = k a s1.
Proof. intros H. unfold mbind, Tx_bind. now rewrite H. Qed.

Lemma tx_bind_err {A B} (m : Tx A) (k : A -> Tx B) s e s1 :
  m s = (Err e, s1) -> (m ≫= k) s = (Err e, s1).
Proof. intros H. unfold mbind, Tx_bind. now rewrite H. Qed.

(** ** The snapshot loop *)

Lemma rowsRead_nil f i : rowsRead f i [] = [].
Proof. simpl. now destruct (f (CartNext i)). Qed.

Lemma rowsRead_all f rows : forall i,
  (forall j, f (CartNext j) = false) -> rowsRead f i rows = rows.
Proof.
  induction rows as [|r rows IH]; intros i Hf; simpl; rewrite Hf; [reflexivity|].
  now rewrite IH.
Qed.

(** The rows read are the first rows of the result set. *)
Lemma rowsRead_prefix f rows : forall i,
  exists rest, rows = rowsRead f i rows ++ rest.
Proof.
  induction rows as [|r rows IH]; intros i; simpl.
  - exists []. now destruct (f (CartNext i)).
  - destruct (f (CartNext i)); [now exists (r :: rows)|].
    destruct (IH (S i)) as [rest Hrest]. exists rest. simpl. now rewrite <- Hrest.
Qed.

Lemma snapshot_nil f t userID : cartQuery t userID = [] -> snapshot f t userID = [].
Proof. unfold snapshot. intros ->. apply rowsRead_nil. Qed.

Lemma snapshot_all f t userID :
  (forall j, f (CartNext j) = false) -> snapshot f t userID = cartQuery t userID.
Proof. intros Hf. now apply rowsRead_all. Qed.

Lemma scanCartRows_ok f rows : forall i items total items' total',
  scanCartRows f i rows items total = Ok (items', total') ->
  items' = items ++ map lineOfRow (rowsRead f i rows) /\
  total' = total + snapshotTotal (rowsRead f i rows).
Proof.
  induction rows as [|[[pid qty] pr] rows IH]; intros i items total items' total' H;
    simpl in *.
  - assert (E : Ok (items, total) = Ok (items', total'))
      by (destruct (f (CartNext i)); exact H).
    inversion E; subst. destruct (f (CartNext i)); simpl;
      (split; [now rewrite app_nil_r|unfold snapshotTotal; simpl; lia]).
  - destruct (f (CartNext i)).
    + inversion H; subst. split; [now rewrite app_nil_r|].
      unfold snapshotTotal. simpl. lia.
    + destruct (f (CartScan i)); [discriminate|].
      apply IH in H as [-> ->]. split.
      * now rewrite <- app_assoc.
      * unfold snapshotTotal. simpl. lia.
Qed.

Lemma scanCartRows_no_fault f rows : forall i items total,
  (forall j, f (CartScan j) = false) ->
  scanCartRows f i rows items total
  = Ok (items ++ map lineOfRow (rowsRead f i rows),
        total + snapshotTotal (rowsRead f i rows)).
Proof.
  induction rows as [|[[pid qty] pr] rows IH]; intros i items total Hf; simpl.
  - destruct (f (CartNext i)); simpl; rewrite app_nil_r; unfold snapshotTotal; simpl;
      f_equal; f_equal; lia.
  - destruct (f (CartNext i)).
    + simpl. rewrite app_nil_r. unfold snapshotTotal. simpl. f_equal. f_equal. lia.
    + rewrite Hf, IH by assumption. rewrite <- app_assoc. simpl.
      unfold snapshotTotal. simpl. f_equal. f_equal. lia.
Qed.

Lemma user_cart_items_nil_cartQuery t userID :
  user_cart_items t userID = [] -> cartQuery t userID = [].
Proof.
  unfold user_cart_items, cartQuery. induction (cart_items t) as [|ci l IH]; simpl.
  - reflexivity.
  - destruct (existsb _ (carts t)) eqn:Hex; [discriminate|].
    intros H. rewrite (IH H), app_nil_r.
    assert (Hc : List.filter (fun c => (ci_cart_id ci =? c_id c) && (c_user_id c =? userID))
                   (carts t) = []).
    { revert Hex. generalize (carts t) as cs.
      induction cs as [|c cs IHc]; simpl; [reflexivity|].
      intros Hex. apply orb_false_iff in Hex as [-> Hex]. auto. }
    rewrite Hc. simpl. induction (List.filter _ (products t)); simpl; auto.
Qed.

(** ** The inserts and the cart clear *)

Lemma txInsertOrderItems_ok f orderID items : forall i t a s,
  txInsertOrderItems f i orderID items (t, a) = (Ok tt, s) ->
  s = (set_order_items t
         (order_items t ++ orderItemRows (next_order_item_id a) orderID items),
       mkAutoInc (next_cart_id a) (next_cart_item_id a) (next_order_id a)
                 (next_order_item_id a + Z.of_nat (length items))).
Proof.
  induction items as [|item items IH]; intros i t a s H; simpl in H.
  - inversion H; subst. destruct t, a; unfold set_order_items; simpl.
    rewrite app_nil_r, Z.add_0_r. reflexivity.
  - destruct (f (InsertOrderItem i)); [discriminate|].
    apply IH in H. subst s. unfold set_order_items, bump_order_item_id. simpl.
    rewrite <- app_assoc. simpl. f_equal. f_equal. lia.
Qed.

Lemma txInsertOrderItems_no_fault f orderID items : forall i t a,
  (forall j, f (InsertOrderItem j) = false) ->
  txInsertOrderItems f i orderID items (t, a)
  = (Ok tt,
     (set_order_items t
        (order_items t ++ orderItemRows (next_order_item_id a) orderID items),
      mkAutoInc (next_cart_id a) (next_cart_item_id a) (next_order_id a)
                (next_order_item_id a + Z.of_nat (length items)))).
Proof.
  induction items as [|item items IH]; intros i t a Hf; simpl.
  - destruct t, a; unfold set_order_items; simpl.
    rewrite app_nil_r, Z.add_0_r. reflexivity.
  - rewrite Hf, IH by assumption. unfold set_order_items, bump_order_item_id. simpl.
    rewrite <- app_assoc. simpl. do 3 f_equal. lia.
Qed.

Lemma txClearCart_eq f userID t a :
  txClearCart f userID (t, a)
  = (Ok tt, (set_cart_items t (clearedItems f (carts t) (cart_items t) userID), a)).
Proof.
  unfold txClearCart, clearedItems.
  destruct (if f CartIDQuery then None else _) as [c|].
  - destruct (f DeleteCartItems); [destruct t|]; reflexivity.
  - destruct t; reflexivity.
Qed.

(** ** What a transaction that reaches the commit has done *)

Lemma createOrderTx_ok f now db userID pm cur t a orderID total iwc s :
  createOrderTx f now db userID pm cur (t, a) = (Ok (orderID, total, iwc), s) ->
  let snap := snapshot f t userID in
  let items := map lineOfRow snap in
  snap <> [] /\ orderID = next_order_id a /\ total = snapshotTotal snap /\
  iwc = map (withCategory (lookupCategories f db (map ProductID items))) items /\
  s = (mkTables (products t) (carts t)
         (clearedItems f (carts t) (cart_items t) userID)
         (orders t ++ [mkOrderRow orderID userID "pending" pm total cur now])
         (order_items t ++ orderItemRows (next_order_item_id a) orderID items),
       mkAutoInc (next_cart_id a) (next_cart_item_id a) (next_order_id a + 1)
         (next_order_item_id a + Z.of_nat (length items))).
Proof.
  intros H snap items. unfold createOrderTx in H.
  apply tx_bind_ok in H as (rows & s1 & Hq & H).
  unfold txCartQuery in Hq. destruct (f CartQuery); [discriminate|].
  unfold mbind, Tx_bind, tx_tables, mret, Tx_ret in Hq. simpl in Hq.
  inversion Hq; subst rows s1; clear Hq.
  apply tx_bind_ok in H as ([items0 total0] & s1 & Hs & H).
  unfold tx_lift in Hs. inversion Hs as [[Hscan Hs1]]; subst s1; clear Hs.
  apply scanCartRows_ok in Hscan as [-> ->]. simpl in H.
  rewrite Z.add_0_l in H.
  change (rowsRead f 0 (cartQuery t userID)) with snap in H. fold items in H.
  destruct (length items =? 0)%nat eqn:Hlen; [discriminate|].
  apply tx_bind_ok in H as (oid & s1 & Hins & H).
  unfold txInsertOrder in Hins. destruct (f InsertOrder); [discriminate|].
  destruct (f OrderLastInsertId); [discriminate|].
  inversion Hins; subst oid s1; clear Hins.
  apply tx_bind_ok in H as ([] & [t1 a1] & Hitems & H).
  apply txInsertOrderItems_ok in Hitems.
  apply tx_bind_ok in H as ([] & s2 & Hclear & H).
  rewrite txClearCart_eq in Hclear. inversion Hclear; subst s2; clear Hclear.
  unfold mret, Tx_ret in H. inversion H; subst orderID total iwc s; clear H.
  inversion Hitems; subst t1 a1; clear Hitems.
  simpl. repeat split.
  intros Hnil. unfold items in Hlen. rewrite Hnil in Hlen. discriminate.
Qed.

Lemma orderItemRows_lines orderID items : forall start,
  map (fun oi => mkCartLine (oi_product_id oi) (oi_quantity oi) (oi_price oi))
      (orderItemRows start orderID items) = items
  /\ Forall (fun oi => oi_order_id oi = orderID) (orderItemRows start orderID items)
  /\ length (orderItemRows start orderID items) = length items
  /\ sumZ (map (fun oi => oi_price oi * oi_quantity oi) (orderItemRows start orderID items))
     = sumZ (map (fun it => Price it * Quantity it) items).
Proof.
  induction items as [|[pid qty pr] items IH]; intros start; simpl.
  - repeat split. constructor.
  - destruct (IH (start + 1)) as (Hm & Hf & Hl & Hs). repeat split.
    + now rewrite Hm.
    + constructor; [reflexivity|assumption].
    + now rewrite Hl.
    + now rewrite Hs.
Qed.

Lemma snapshotTotal_lines snap :
  sumZ (map (fun it => Price it * Quantity it) (map lineOfRow snap)) = snapshotTotal snap.
Proof.
  unfold snapshotTotal. induction snap as [|[[pid qty] pr] snap IH]; simpl; [reflexivity|].
  now rewrite IH.
Qed.

Lemma orderQueryByID_fresh l orderID row :
  Forall (fun o => o_id o < orderID) l -> o_id row = orderID ->
  List.filter (fun o => o_id o =? orderID) (l ++ [row]) = [row].
Proof.
  intros Hl Hrow. rewrite List.filter_app. simpl.
  rewrite Hrow, Z.eqb_refl.
  replace (List.filter (fun o => o_id o =? orderID) l) with (@nil OrderRow); [reflexivity|].
  induction Hl as [|o l Ho Hl IH]; simpl; [reflexivity|].
  destruct (Z.eqb_spec (o_id o) orderID); [lia|assumption].
Qed.

Lemma orderQueryByID_present l orderID row :
  o_id row = orderID ->
  first_row (List.filter (fun o => o_id o =? orderID) (l ++ [row])) <> None.
Proof.
  intros Hrow. rewrite List.filter_app. simpl. rewrite Hrow, Z.eqb_refl.
  destruct (List.filter _ l); simpl; discriminate.
Qed.

(** A successful CreateOrder, read backwards. *)
Lemma CreateOrder_ok f now st userID pm cur order st' evs :
  CreateOrder f now st userID pm cur = (Ok order, st', evs) ->
  let snap := snapshot f (tables st) userID in
  let items := map lineOfRow snap in
  let orderID := next_order_id (autoinc st) in
  snap <> [] /\
  tables st' = mkTables (products (tables st)) (carts (tables st))
    (clearedItems f (carts (tables st)) (cart_items (tables st)) userID)
    (orders (tables st) ++
       [mkOrderRow orderID userID "pending" pm (snapshotTotal snap) cur now])
    (order_items (tables st) ++
       orderItemRows (next_order_item_id (autoinc st)) orderID items) /\
  GetOrder f (tables st') orderID = Ok order /\
  evs = recordCategoryMetrics (Order_Status order) pm cur
          (categoryTotals
             (map (withCategory (lookupCategories f (tables st) (map ProductID items)))
                  items)).
Proof.
  intros H snap items orderID. unfold CreateOrder in H.
  destruct (f BeginTx); [discriminate|].
  destruct (createOrderTx _ _ _ _ _ _ _) as [[[[oid total] iwc]|e] s] eqn:Htx;
    [|discriminate].
  destruct (f Commit); [discriminate|].
  apply createOrderTx_ok in Htx as (Hsnap & -> & -> & -> & ->).
  simpl in H.
  destruct (GetOrder _ _ _) as [o|e] eqn:Hget; [|discriminate].
  inversion H; subst order st' evs; clear H. simpl.
  split; [exact Hsnap|]. split; [reflexivity|]. split; [exact Hget|reflexivity].
Qed.

(** The order CreateOrder returns is the row it inserted, when the ids
    that AUTO_INCREMENT hands out are fresh. *)
Lemma CreateOrder_order f now st userID pm cur order st' evs :
  CreateOrder f now st userID pm cur = (Ok order, st', evs) -> orders_fresh st ->
  order = mkOrder (next_order_id (autoinc st)) userID "pending" pm
            (snapshotTotal (snapshot f (tables st) userID)) cur now.
Proof.
  intros H Hfresh. apply CreateOrder_ok in H as (_ & Ht & Hget & _).
  unfold GetOrder in Hget. destruct (f GetOrderQuery); [discriminate|].
  unfold orderQueryByID in Hget. rewrite Ht in Hget. simpl in Hget.
  rewrite (orderQueryByID_fresh _ (next_order_id (autoinc st))) in Hget
    by (auto; exact Hfresh).
  simpl in Hget. inversion Hget. reflexivity.
Qed.

(** The transaction goes through when none of its checked statements
    fails and the snapshot is not empty. *)
Lemma createOrderTx_runs f now db userID pm cur t a :
  f CartQuery = false -> (forall j, f (CartScan j) = false) ->
  f InsertOrder = false -> f OrderLastInsertId = false ->
  (forall j, f (InsertOrderItem j) = false) ->
  snapshot f t userID <> [] ->
  exists r s, createOrderTx f now db userID pm cur (t, a) = (Ok r, s).
Proof.
  intros Hq Hscan Hins Hid Hitems Hsnap.
  unfold createOrderTx, txCartQuery. rewrite Hq.
  unfold mbind at 1 2. unfold Tx_bind, tx_tables, mret, Tx_ret, tx_lift. simpl.
  rewrite scanCartRows_no_fault by assumption. simpl.
  change (rowsRead f 0 (cartQuery t userID)) with (snapshot f t userID).
  destruct (length (map lineOfRow (snapshot f t userID)) =? 0)%nat eqn:Hlen.
  { destruct (snapshot f t userID); [congruence|discriminate]. }
  unfold mbind at 1. unfold Tx_bind, txInsertOrder. rewrite Hins, Hid.
  cbv beta iota zeta.
  erewrite tx_bind_step by (apply txInsertOrderItems_no_fault; assumption).
  cbv beta.
  erewrite tx_bind_step by apply txClearCart_eq.
  eauto.
Qed.

(** With no store fault and a snapshot that is not empty, CreateOrder goes
    through. *)
Lemma CreateOrder_no_faults now st userID pm cur :
  cartQuery (tables st) userID <> [] ->
  exists order st' evs, CreateOrder no_faults now st userID pm cur = (Ok order, st', evs).
Proof.
  intros Hsnap.
  destruct (createOrderTx_runs no_faults now (tables st) userID pm cur (tables st)
              (autoinc st))
    as ([[oid total] iwc] & s & Htx); try reflexivity.
  { now rewrite snapshot_all. }
  unfold CreateOrder. simpl. rewrite Htx. simpl.
  apply createOrderTx_ok in Htx as (_ & -> & -> & -> & ->).
  unfold GetOrder. simpl. unfold orderQueryByID. simpl.
  destruct (first_row _) as [o|] eqn:Ho.
  - eauto.
  - exfalso. revert Ho. now apply orderQueryByID_present.
Qed.

(** ** Concrete stores *)

(** ** CreateOrder: errors and rollback *)

(** Every error CreateOrder returns from inside the transaction leaves the
    committed tables as they were and records no metric.  (The re-read of
    the order after the commit is outside the transaction.) *)
Lemma CreateOrder_error_rolls_back f now st userID pm cur e st' evs :
  f GetOrderQuery = false ->
  CreateOrder f now st userID pm cur = (Err e, st', evs) ->
  tables st' = tables st /\ evs = [].
Proof.
  intros Hg H. unfold CreateOrder in H.
  destruct (f BeginTx); [inversion H; auto|].
  destruct (createOrderTx _ _ _ _ _ _ _) as [[[[oid total] iwc]|e0] s] eqn:Htx.
  - destruct (f Commit); [inversion H; auto|].
    apply createOrderTx_ok in Htx as (_ & -> & -> & -> & ->).
    exfalso. unfold GetOrder in H. rewrite Hg in H. simpl in H.
    unfold orderQueryByID in H. simpl in H.
    destruct (first_row _) as [o|] eqn:Ho; [discriminate|].
    revert Ho. now apply orderQueryByID_present.
  - inversion H; auto.
Qed.

(** A failed insert of the second order item: full rollback. *)
Example CreateOrder_item_insert_failure :
  exists st', CreateOrder fail_at_second_item 100 demo_store 7 "paypal" "USD"
              = (Err ErrCreateOrderItem, st', [])
    /\ tables st' = tables demo_store.
Proof. eexists. split; vm_compute; reflexivity. Qed.

(** C1 (the code departs from it): an error of the cart id read or of the
    DELETE of step 6 is not returned.  CreateOrder commits and reports
    success; the order and its items are persisted and the cart keeps its
    items. *)
Theorem CreateOrder_clear_error_not_surfaced :
  (exists order st' evs,
     CreateOrder fail_at_delete 100 demo_store 7 "paypal" "USD" = (Ok order, st', evs) /\
     length (orders (tables st')) = 1%nat /\
     length (order_items (tables st')) = 2%nat /\
     cart_items (tables st') = cart_items (tables demo_store)) /\
  (exists order st' evs,
     CreateOrder fail_at_cart_id 100 demo_store 7 "paypal" "USD" = (Ok order, st', evs) /\
     length (orders (tables st')) = 1%nat /\
     length (order_items (tables st')) = 2%nat /\
     cart_items (tables st') = cart_items (tables demo_store)).
Proof.
  split; eexists _, _, _; (split; [vm_compute; reflexivity|]); vm_compute; auto.
Qed.

(** ** CreateOrder on an empty cart *)

Lemma CreateOrder_on_empty f now st userID pm cur :
  cartQuery (tables st) userID = [] ->
  exists e, CreateOrder f now st userID pm cur = (Err e, st, []) /\
    (f BeginTx = false -> f CartQuery = false -> e = ErrCartEmpty).
Proof.
  intros Hempty. unfold CreateOrder. destruct (f BeginTx) eqn:Hb.
  - exists ErrBeginTx. split; [reflexivity|discriminate].
  - unfold createOrderTx, txCartQuery. destruct (f CartQuery) eqn:Hq.
    + exists ErrGetCartItems. split; [|discriminate].
      unfold mbind, Tx_bind, tx_fail, rollback. simpl. destruct st; reflexivity.
    + exists ErrCartEmpty. split; [|reflexivity].
      unfold mbind, Tx_bind, tx_tables, tx_lift, mret, Tx_ret, tx_fail, rollback.
      simpl. rewrite Hempty. simpl.
      destruct (f (CartNext 0)); simpl; destruct st; reflexivity.
Qed.

(** C2: when the user's cart has no items, CreateOrder returns an error and
    the store is exactly as before (no order, no order item, no change to
    a cart row or cart item, no metric); the error is "cart is empty"
    whenever the transaction could be opened and the cart read. *)
Theorem CreateOrder_empty_cart f now st userID pm cur :
  user_cart_items (tables st) userID = [] ->
  exists e, CreateOrder f now st userID pm cur = (Err e, st, []) /\
    (f BeginTx = false -> f CartQuery = false -> e = ErrCartEmpty).
Proof.
  intros Hempty. apply user_cart_items_nil_cartQuery in Hempty.
  now apply CreateOrder_on_empty.
Qed.

Lemma CreateOrder_empty_cart_witness :
  exists e, CreateOrder no_faults 100 demo_store 9 "paypal" "USD" = (Err e, demo_store, []) /\
    (no_faults BeginTx = false -> no_faults CartQuery = false -> e = ErrCartEmpty).
Proof. apply (CreateOrder_empty_cart no_faults 100 demo_store 9). reflexivity. Defined.

(** ** CreateOrder: the order and its items *)

(** C3 (the code departs from it): the cart loop never reads [rows.Err()],
    which GetCart, ListUserOrders and ListProducts return.  When [rows.Next()]
    meets an error after the first row of user 7's two-line cart,
    CreateOrder goes on with that one line: it commits and returns an
    order with one item and the total of that line, and the clear step
    deletes the whole cart, the line that was never ordered included. *)
Theorem CreateOrder_partial_snapshot :
  cartQuery (tables demo_store) 7 = [(1, 2, 99999); (8, 3, 1999)] /\
  exists order st' evs,
    CreateOrder stop_after_first_row 100 demo_store 7 "paypal" "USD"
      = (Ok order, st', evs) /\
    Order_TotalAmount order = 199998 /\
    order_items (tables st') = [mkOrderItemRow 1 1 1 2 99999] /\
    user_cart_items (tables demo_store) 7
      = [mkCartItemRow 1 1 1 2; mkCartItemRow 2 1 8 3] /\
    user_cart_items (tables st') 7 = [].
Proof.
  split; [reflexivity|]. eexists _, _, _. split; [vm_compute; reflexivity|].
  repeat split.
Qed.

(** X25: a successful CreateOrder read a snapshot of N >= 1 lines (the
    rows of the cart query that the loop read), appended exactly one row
    to orders (status pending, total the sum of price × quantity over the
    snapshot) and exactly N rows to order_items, one per snapshot line in
    order, each with the line's product, quantity and unit price and the
    new order's id; the order it returns carries that total.  The
    snapshot is made of the first rows of the cart query, and of all of
    them when the iteration over the rows is not cut short; and with no
    store fault CreateOrder does succeed. *)
Theorem CreateOrder_order_and_items f now st userID pm cur order st' evs :
  CreateOrder f now st userID pm cur = (Ok order, st', evs) ->
  let snap := snapshot f (tables st) userID in
  let orderID := next_order_id (autoinc st) in
  (1 <= length snap)%nat /\
  orders (tables st') = orders (tables st) ++
    [mkOrderRow orderID userID "pending" pm (snapshotTotal snap) cur now] /\
  (exists rows,
     order_items (tables st') = order_items (tables st) ++ rows /\
     length rows = length snap /\
     map (fun oi => (oi_product_id oi, oi_quantity oi, oi_price oi)) rows = snap /\
     Forall (fun oi => oi_order_id oi = orderID) rows /\
     sumZ (map (fun oi => oi_price oi * oi_quantity oi) rows) = snapshotTotal snap) /\
  (orders_fresh st ->
     order = mkOrder orderID userID "pending" pm (snapshotTotal snap) cur now) /\
  (exists rest, cartQuery (tables st) userID = snap ++ rest) /\
  ((forall i, f (CartNext i) = false) -> snap = cartQuery (tables st) userID) /\
  (exists order0 st0 evs0,
     CreateOrder no_faults now st userID pm cur = (Ok order0, st0, evs0)).
Proof.
  intros H snap orderID.
  pose proof (CreateOrder_order _ _ _ _ _ _ _ _ _ H) as Horder.
  apply CreateOrder_ok in H as (Hsnap & Ht & Hget & _).
  fold snap in Hsnap, Ht. fold orderID in Ht, Hget.
  destruct (orderItemRows_lines orderID (map lineOfRow snap)
              (next_order_item_id (autoinc st))) as (Hm & Hf & Hl & Hs).
  split; [destruct snap; [congruence|simpl; lia]|].
  split; [now rewrite Ht|].
  split.
  { eexists. split; [rewrite Ht; reflexivity|].
    split; [now rewrite Hl, length_map|].
    split; [|split; [exact Hf|now rewrite Hs, snapshotTotal_lines]].
    apply (f_equal (map (fun it => (ProductID it, Quantity it, Price it)))) in Hm.
    rewrite !map_map in Hm. simpl in Hm. rewrite Hm.
    clear. induction snap as [|[[pid qty] pr] snap IH]; simpl; [reflexivity|].
    now rewrite IH. }
  split; [exact Horder|].
  split; [apply rowsRead_prefix|].
  split; [apply snapshot_all|].
  apply CreateOrder_no_faults. intros Hnil. apply Hsnap.
  now apply snapshot_nil.
Qed.

Lemma CreateOrder_demo :
  CreateOrder no_faults 100 demo_store 7 "paypal" "USD"
  = (Ok demo_order, demo_store_after, demo_events).
Proof. vm_compute. reflexivity. Qed.

Lemma CreateOrder_order_and_items_witness :
  CreateOrder no_faults 100 demo_store 7 "paypal" "USD"
    = (Ok demo_order, demo_store_after, demo_events) /\
    orders (tables demo_store_after)
    = orders (tables demo_store) ++ [mkOrderRow 1 7 "pending" "paypal" 205995 "USD" 100].
Proof.
  assert (H : CreateOrder no_faults 100 demo_store 7 "paypal" "USD"
              = (Ok demo_order, demo_store_after, demo_events))
    by (vm_compute; reflexivity).
  split; [exact H|].
  exact (proj1 (proj2 (CreateOrder_order_and_items _ _ _ _ _ _ _ _ _ H))).
Defined.

(** ** CreateOrder: the cart afterwards *)

(** C4 (the code departs from it): the step under "// Clear cart" does not
    always clear the cart of a successful order.  When its DELETE fails,
    the error is dropped (the defect of C1) and CreateOrder succeeds with
    both cart items left.  And the snapshot spans every cart row of the
    user while the clear step deletes the items of the first one only:
    for a user with two cart rows CreateOrder succeeds, charges both
    lines and leaves the second, which the next CreateOrder orders
    again. *)
Theorem CreateOrder_cart_not_cleared :
  (exists order st' evs,
     CreateOrder fail_at_delete 100 demo_store 7 "paypal" "USD" = (Ok order, st', evs) /\
     user_cart_items (tables st') 7 = [mkCartItemRow 1 1 1 2; mkCartItemRow 2 1 8 3]) /\
  (exists order st' evs order2 st2 evs2,
     CreateOrder no_faults 100 two_carts_store 7 "paypal" "USD" = (Ok order, st', evs) /\
     Order_TotalAmount order = 205995 /\
     user_cart_items (tables st') 7 = [mkCartItemRow 2 2 8 3] /\
     CreateOrder no_faults 101 st' 7 "paypal" "USD" = (Ok order2, st2, evs2) /\
     Order_TotalAmount order2 = 5997 /\
     user_cart_items (tables st2) 7 = [mkCartItemRow 2 2 8 3]).
Proof.
  split.
  - eexists _, _, _. split; vm_compute; reflexivity.
  - eexists _, _, _, _, _, _. split; [vm_compute; reflexivity|].
    split; [reflexivity|]. split; [reflexivity|].
    split; [vm_compute; reflexivity|]. split; reflexivity.
Qed.

Lemma filter_negb_filter {A} (p : A -> bool) (l : list A) :
  List.filter p (List.filter (fun x => negb (p x)) l) = [].
Proof.
  induction l as [|x l IH]; simpl; [reflexivity|].
  destruct (p x) eqn:Hp; simpl; [assumption|]. now rewrite Hp.
Qed.

Lemma cartQuery_no_cart t userID :
  List.filter (fun c => c_user_id c =? userID) (carts t) = [] ->
  cartQuery t userID = [].
Proof.
  intros Hf. unfold cartQuery.
  assert (Hnone : forall ci, List.filter (fun c => (ci_cart_id ci =? c_id c)
                    && (c_user_id c =? userID)) (carts t) = []).
  { intros ci. revert Hf. generalize (carts t) as cs.
    induction cs as [|c cs IH]; simpl; [reflexivity|].
    destruct (c_user_id c =? userID); [discriminate|].
    rewrite andb_false_r. exact IH. }
  generalize (cart_items t) as cis.
  induction cis as [|ci cis IH]; simpl; [reflexivity|].
  rewrite IH, app_nil_r, Hnone.
  generalize (List.filter (fun p => ci_product_id ci =? p_id p) (products t)) as ps.
  induction ps; simpl; auto.
Qed.

Lemma single_cart_owner cs userID c ci :
  List.filter (fun c => c_user_id c =? userID) cs = [c] ->
  existsb (fun c0 => (ci_cart_id ci =? c_id c0) && (c_user_id c0 =? userID)) cs = true ->
  (ci_cart_id ci =? c_id c) = true.
Proof.
  induction cs as [|c0 cs IH]; simpl; [discriminate|].
  destruct (c_user_id c0 =? userID) eqn:Hu.
  - intros Hf. inversion Hf as [[Hc0 Hcs]]. subst c0.
    rewrite andb_true_r. destruct (ci_cart_id ci =? c_id c); [reflexivity|].
    simpl. intros Hex. exfalso. clear IH Hf. revert Hcs Hex.
    induction cs as [|c1 cs IH]; simpl; [discriminate|].
    destruct (c_user_id c1 =? userID); [discriminate|].
    rewrite andb_false_r. simpl. auto.
  - rewrite andb_false_r. simpl. auto.
Qed.

(** X26: after a successful CreateOrder in which the cart id read and the
    DELETE of the clear step gave no error, the cart table is unchanged
    (the cart row is kept), no cart item of the cart row that the read
    returned (the user's first) is left, and, when the user owns at most
    one cart row, the user's cart has no items at all. *)
Theorem CreateOrder_clears_cart f now st userID pm cur order st' evs :
  CreateOrder f now st userID pm cur = (Ok order, st', evs) ->
  f CartIDQuery = false -> f DeleteCartItems = false ->
  carts (tables st') = carts (tables st) /\
  (exists c,
     first_row (List.filter (fun c => c_user_id c =? userID) (carts (tables st'))) = Some c /\
     List.filter (fun ci => ci_cart_id ci =? c_id c) (cart_items (tables st')) = []) /\
  (Nat.le (length (List.filter (fun c => c_user_id c =? userID) (carts (tables st)))) 1 ->
   user_cart_items (tables st') userID = []).
Proof.
  intros H Hq Hd.
  apply CreateOrder_ok in H as (Hsnap & Ht & _ & _).
  destruct (List.filter (fun c => c_user_id c =? userID) (carts (tables st)))
    as [|c cs] eqn:Hf.
  { exfalso. apply Hsnap. now apply snapshot_nil, cartQuery_no_cart. }
  unfold clearedItems in Ht. rewrite Hq, Hf, Hd in Ht. simpl in Ht.
  rewrite Ht. simpl. rewrite Hf. simpl. split; [reflexivity|]. split.
  - exists c. split; [reflexivity|].
    apply (filter_negb_filter (fun ci => ci_cart_id ci =? c_id c)).
  - intros Hone. destruct cs as [|c1 cs]; [|simpl in Hone; lia].
    unfold user_cart_items. simpl.
    generalize (cart_items (tables st)) as cis.
    induction cis as [|ci cis IH]; simpl; [reflexivity|].
    destruct (ci_cart_id ci =? c_id c) eqn:Hci; simpl; [exact IH|].
    destruct (existsb _ (carts (tables st))) eqn:He; [|exact IH].
    apply (single_cart_owner _ _ _ _ Hf) in He. congruence.
Qed.

Lemma CreateOrder_clears_cart_witness :
  carts (tables demo_store_after) = carts (tables demo_store) /\
  user_cart_items (tables demo_store_after) 7 = [].
Proof.
  assert (H : CreateOrder no_faults 100 demo_store 7 "paypal" "USD"
              = (Ok demo_order, demo_store_after, demo_events))
    by (vm_compute; reflexivity).
  destruct (CreateOrder_clears_cart _ _ _ _ _ _ _ _ _ H eq_refl eq_refl)
    as (Hc & _ & Hu).
  split; [exact Hc|]. apply Hu. vm_compute. apply le_n.
Defined.

(** ** UpdateOrderStatus: validation and transitions *)

Lemma validStatuses_recognized status :
  In status recognized -> default false (validStatuses !! status) = true.
Proof.
  unfold recognized. simpl. intros H.
  repeat (destruct H as [H|H]; [subst status; reflexivity|]). destruct H.
Qed.

Lemma validStatuses_unrecognized status :
  ~ In status recognized -> default false (validStatuses !! status) = false.
Proof.
  unfold recognized. simpl. intros H.
  unfold validStatuses.
  rewrite !lookup_insert_ne by (intros E; apply H; rewrite <- E; auto 10).
  now rewrite lookup_empty.
Qed.

(** C5: a status outside the six labels is rejected with "invalid status"
    before any statement is sent: the store, and with it the order's stored
    status, is unchanged, and no metric is recorded. *)
Theorem UpdateOrderStatus_invalid_status f now st orderID status :
  ~ In status recognized ->
  UpdateOrderStatus f now st orderID status = (Some (ErrInvalidStatus status), st, []).
Proof.
  intros H. unfold UpdateOrderStatus.
  now rewrite validStatuses_unrecognized.
Qed.

Lemma UpdateOrderStatus_invalid_status_witness :
  UpdateOrderStatus no_faults 200 demo_store_after 1 "refunded"
  = (Some (ErrInvalidStatus "refunded"), demo_store_after, []).
Proof.
  apply UpdateOrderStatus_invalid_status.
  unfold recognized. simpl. intros [H|[H|[H|[H|[H|[H|[]]]]]]]; discriminate H.
Defined.

Lemma updateStatusExec_orders t status now orderID :
  orders (fst (updateStatusExec t status now orderID))
  = map (fun o => if o_id o =? orderID then set_status status now o else o) (orders t).
Proof. reflexivity. Qed.

(** The UPDATE reports a changed row as soon as one row with the id does
    not yet carry the status and the second. *)
Lemma updateStatusExec_affected t status now orderID :
  (exists o, In o (orders t) /\ o_id o = orderID /\
             (o_status o <> status \/ o_updated_at o <> now)) ->
  (snd (updateStatusExec t status now orderID) =? 0) = false.
Proof.
  intros (o & Hin & Hid & Hch). unfold updateStatusExec, orderQueryByID. simpl.
  assert (Hf : In o (List.filter (changed_by status now)
                       (List.filter (fun o => o_id o =? orderID) (orders t)))).
  { apply filter_In. split; [apply filter_In; split; [assumption|now apply Z.eqb_eq]|].
    unfold changed_by. destruct Hch as [H|H].
    - destruct (String.eqb_spec (o_status o) status); [contradiction|reflexivity].
    - destruct (Z.eqb_spec (o_updated_at o) now); [contradiction|].
      now rewrite andb_false_r. }
  destruct (List.filter _ _); [destruct Hf|reflexivity].
Qed.

(** It changes nothing and reports no row when every row with the id
    carries the status and the second already, as when there is no such
    row. *)
Lemma updateStatusExec_unchanged t status now orderID :
  (forall o, In o (orders t) -> o_id o = orderID ->
             o_status o = status /\ o_updated_at o = now) ->
  updateStatusExec t status now orderID = (t, 0).
Proof.
  intros Hsame. unfold updateStatusExec, orderQueryByID.
  assert (Hm : map (fun o => if o_id o =? orderID then set_status status now o else o)
                   (orders t) = orders t).
  { revert Hsame. generalize (orders t) as l.
    induction l as [|o l IH]; simpl; intros Hsame; [reflexivity|].
    rewrite IH by auto. f_equal.
    destruct (Z.eqb_spec (o_id o) orderID) as [E|_]; [|reflexivity].
    destruct (Hsame o (or_introl eq_refl) E) as [<- <-]. now destruct o. }
  assert (Hf : List.filter (changed_by status now)
                 (List.filter (fun o => o_id o =? orderID) (orders t)) = []).
  { revert Hsame. generalize (orders t) as l.
    induction l as [|o l IH]; simpl; intros Hsame; [reflexivity|].
    destruct (Z.eqb_spec (o_id o) orderID) as [E|_]; [|auto]. simpl.
    destruct (Hsame o (or_introl eq_refl) E) as [Hs Hn]. unfold changed_by at 1.
    rewrite Hs, Hn, String.eqb_refl, Z.eqb_refl. simpl. auto. }
  rewrite Hm, Hf. destruct t; reflexivity.
Qed.

(** One accepted update: no error, every row with the id now carries the
    new status (whatever it carried before), all other rows and tables are
    as they were. *)
Lemma UpdateOrderStatus_ok f now st orderID status :
  In status recognized ->
  (exists o, In o (orders (tables st)) /\ o_id o = orderID /\
             (o_status o <> status \/ o_updated_at o <> now)) ->
  f UpdateExec = false -> f RowsAffected = false ->
  exists evs,
    UpdateOrderStatus f now st orderID status
    = (None, mkStore (fst (updateStatusExec (tables st) status now orderID)) (autoinc st),
       evs).
Proof.
  intros Hs Ho Hu Hr. unfold UpdateOrderStatus.
  rewrite (validStatuses_recognized _ Hs), Hu. simpl negb. cbv iota.
  pose proof (updateStatusExec_affected _ _ _ _ Ho) as Ha.
  destruct (updateStatusExec (tables st) status now orderID) as [t' n] eqn:Hex.
  simpl in Ha. rewrite Hr, Ha. simpl fst.
  destruct (String.eqb status "completed"); [|eauto].
  destruct (GetOrder _ _ _); [|eauto].
  destruct (f ItemQuery); eauto.
Qed.

Lemma updateStatusExec_keeps_order t status now orderID :
  (exists o, In o (orders t) /\ o_id o = orderID) ->
  exists o, In o (orders (fst (updateStatusExec t status now orderID))) /\ o_id o = orderID.
Proof.
  intros (o & Hin & Hid). exists (set_status status now o). split; [|exact Hid].
  rewrite updateStatusExec_orders. apply in_map_iff. exists o.
  rewrite Hid, Z.eqb_refl. auto.
Qed.

Lemma updateStatusExec_written t status now orderID o :
  In o (orders (fst (updateStatusExec t status now orderID))) -> o_id o = orderID ->
  o_status o = status /\ o_updated_at o = now.
Proof.
  intros Hin Hid. rewrite updateStatusExec_orders in Hin.
  apply in_map_iff in Hin as (o0 & Ho0 & _).
  destruct (Z.eqb_spec (o_id o0) orderID) as [E|E]; subst o; [split; reflexivity|].
  contradiction.
Qed.

(** C6 (the code departs from it): the service takes [RowsAffected] = 0 for
    "no such order", but MySQL reports the rows an UPDATE changed.  Order 1
    was created as "pending" at second 100 and exists; an update to
    "pending" within that second changes no column and is answered with
    "order not found".  Likewise for an order set to "shipped" and, within
    the same second, to "shipped" again. *)
Theorem UpdateOrderStatus_unchanged_order_not_found :
  CreateOrder no_faults 100 demo_store 7 "paypal" "USD"
    = (Ok demo_order, demo_store_after, demo_events) /\
  GetOrder no_faults (tables demo_store_after) 1 = Ok demo_order /\
  UpdateOrderStatus no_faults 100 demo_store_after 1 "pending"
    = (Some ErrOrderNotFound, demo_store_after, []) /\
  UpdateOrderStatus no_faults 200 demo_store_after 1 "shipped"
    = (None, demo_store_shipped, []) /\
  UpdateOrderStatus no_faults 200 demo_store_shipped 1 "shipped"
    = (Some ErrOrderNotFound, demo_store_shipped, []).
Proof. repeat split; vm_compute; reflexivity. Qed.

(** X27: for an existing order, every recognized label is accepted
    whatever the order's current status, the store answering and the
    UPDATE changing the row (the label differs from the stored one, or the
    second from that of the last write): the call returns no error and the
    order's rows carry the new label and the second of the call; a further
    update to any recognized label that changes the row again, back to
    "pending" included, is accepted again.  The same update repeated within
    the second changes no row and is answered with "order not found". *)
Theorem UpdateOrderStatus_any_transition f now st orderID status :
  In status recognized ->
  (exists o, In o (orders (tables st)) /\ o_id o = orderID /\
             (o_status o <> status \/ o_updated_at o <> now)) ->
  f UpdateExec = false -> f RowsAffected = false ->
  exists st' evs,
    UpdateOrderStatus f now st orderID status = (None, st', evs) /\
    orders (tables st')
      = map (fun o => if o_id o =? orderID then set_status status now o else o)
            (orders (tables st)) /\
    (forall o, In o (orders (tables st')) -> o_id o = orderID ->
       o_status o = status /\ o_updated_at o = now) /\
    (forall status2 now2, In status2 recognized -> status2 <> status \/ now2 <> now ->
       exists st'' evs', UpdateOrderStatus f now2 st' orderID status2 = (None, st'', evs') /\
         forall o, In o (orders (tables st'')) -> o_id o = orderID ->
                   o_status o = status2 /\ o_updated_at o = now2) /\
    UpdateOrderStatus f now st' orderID status = (Some ErrOrderNotFound, st', []).
Proof.
  intros Hs Ho Hu Hr.
  destruct (UpdateOrderStatus_ok f now st orderID status Hs Ho Hu Hr) as (evs & H).
  assert (Hex : exists o, In o (orders (tables st)) /\ o_id o = orderID).
  { destruct Ho as (o & Hin & Hid & _). eauto. }
  eexists _, evs. split; [exact H|]. split; [reflexivity|]. split; [|split].
  - intros o. apply updateStatusExec_written.
  - intros status2 now2 Hs2 Hdiff.
    destruct (updateStatusExec_keeps_order (tables st) status now orderID Hex)
      as (o1 & Hin1 & Hid1).
    destruct (updateStatusExec_written _ _ _ _ _ Hin1 Hid1) as [Hst Hnow].
    destruct (UpdateOrderStatus_ok f now2
                (mkStore (fst (updateStatusExec (tables st) status now orderID)) (autoinc st))
                orderID status2 Hs2) as (evs' & H'); auto.
    { exists o1. split; [exact Hin1|]. split; [exact Hid1|].
      rewrite Hst, Hnow. destruct Hdiff; [left|right]; congruence. }
    eexists _, evs'. split; [exact H'|]. intros o. apply updateStatusExec_written.
  - unfold UpdateOrderStatus.
    rewrite (validStatuses_recognized _ Hs), Hu. simpl negb. cbv iota.
    rewrite updateStatusExec_unchanged by (intros o; apply updateStatusExec_written).
    rewrite Hr. simpl. reflexivity.
Qed.

Lemma UpdateOrderStatus_any_transition_witness :
  exists st' evs,
    UpdateOrderStatus no_faults 200 demo_store_after 1 "shipped" = (None, st', evs) /\
    exists st'' evs',
      UpdateOrderStatus no_faults 300 st' 1 "pending" = (None, st'', evs') /\
      forall o, In o (orders (tables st'')) -> o_id o = 1 ->
                o_status o = "pending" /\ o_updated_at o = 300.
Proof.
  destruct (UpdateOrderStatus_any_transition no_faults 200 demo_store_after 1 "shipped")
    as (st' & evs & H & _ & _ & H2 & _).
  - unfold recognized. simpl. tauto.
  - eexists. split; [left; reflexivity|]. split; [reflexivity|]. left. discriminate.
  - reflexivity.
  - reflexivity.
  - exists st', evs. split; [exact H|]. apply H2.
    + unfold recognized. simpl. tauto.
    + left. discriminate.
Defined.

(** ** The product cache *)

Lemma cacheGet_cachePut items id p t0 t :
  cacheGet (cachePut items t0 id p) t id
  = if t <? t0 + cacheTTL then Some p else None.
Proof. unfold cacheGet, cachePut. now rewrite lookup_insert_eq. Qed.

(** On a miss that the store can serve, GetProduct puts the loaded product
    into the cache with the clock of that moment. *)
Lemma GetProduct_miss_populates f t items now now' id r p :
  cacheGet items now id = None -> f ProductQuery = false ->
  first_row (List.filter (fun r => p_id r =? id) (products t)) = Some r ->
  scanProduct r = Some p ->
  GetProduct f t items now now' id
  = (Ok p, cachePut items now' id p, [CacheMisses; ProductsViewed id (Product_Category p)]).
Proof.
  intros Hc Hf Hr Hs. unfold GetProduct. now rewrite Hc, Hf, Hr, Hs.
Qed.



(** ** AddToCart *)

Lemma GetOrCreateCart_tables f st userID r st1 :
  GetOrCreateCart f st userID = (r, st1) ->
  products (tables st1) = products (tables st) /\
  cart_items (tables st1) = cart_items (tables st) /\
  next_cart_item_id (autoinc st1) = next_cart_item_id (autoinc st).
Proof.
  unfold GetOrCreateCart. intros H.
  destruct (f CartSelect); [inversion H; auto|].
  destruct (first_row _); [inversion H; auto|].
  destruct (f CartInsert); [inversion H; auto|].
  destruct (f CartLastInsertId); inversion H; auto.
Qed.

Lemma checkQuery_update cis cartID productID row d :
  List.filter (fun ci => (ci_cart_id ci =? cartID) && (ci_product_id ci =? productID)) cis
    = [row] ->
  List.filter (fun ci => (ci_cart_id ci =? cartID) && (ci_product_id ci =? productID))
    (map (fun ci => if ci_id ci =? ci_id row then add_quantity d ci else ci) cis)
    = [add_quantity d row].
Proof.
  set (p := fun ci => (ci_cart_id ci =? cartID) && (ci_product_id ci =? productID)).
  set (g := fun ci => if ci_id ci =? ci_id row then add_quantity d ci else ci).
  assert (Hp : forall ci, p (g ci) = p ci).
  { intros ci. unfold g. destruct (ci_id ci =? ci_id row); reflexivity. }
  assert (Hfm : forall l, List.filter p (map g l) = map g (List.filter p l)).
  { induction l as [|ci l IH]; simpl; [reflexivity|].
    rewrite Hp. destruct (p ci); simpl; now rewrite IH. }
  intros H. rewrite Hfm, H. simpl. unfold g. now rewrite Z.eqb_refl.
Qed.

(** C9 as stated fails in its last part: the cart is resolved, and created
    when the user has none, before the product is checked.  User 5 has no
    cart and product 999 does not exist; the call fails with "product not
    found" and has inserted a cart row. *)
Lemma AddToCart_missing_product_creates_cart :
  exists st',
    AddToCart no_faults demo_store 5 999 1 = (Some ErrProductNotFound, st', []) /\
    carts (tables st') = carts (tables demo_store) ++ [mkCartRow 3 5] /\
    ~ (carts (tables st') = carts (tables demo_store)).
Proof.
  eexists. split; [vm_compute; reflexivity|].
  split; [vm_compute; reflexivity|]. vm_compute. discriminate.
Qed.

(** C9 (amended): let the cart of the user be resolved (found, or created
    when there is none).  If the product is not in the catalog the call
    fails with "product not found" and no cart item has been written (a
    cart row may have been created just before).  If it is in the catalog:
    when the cart holds exactly one row for the product, with quantity q,
    the call leaves exactly one row for the pair, with quantity q + d, and
    inserts none; when the cart holds no row for it, the call appends one
    row with quantity d, the only row for the pair. *)
Theorem AddToCart_upsert f st userID productID d cart st1 :
  GetOrCreateCart f st userID = (Ok cart, st1) ->
  f ProductExists = false ->
  cart_items (tables st1) = cart_items (tables st) /\
  (existsb (fun p => p_id p =? productID) (products (tables st)) = false ->
     AddToCart f st userID productID d = (Some ErrProductNotFound, st1, [])) /\
  (existsb (fun p => p_id p =? productID) (products (tables st)) = true ->
   f CartItemSelect = false ->
     (forall row, checkQuery (tables st) (Cart_ID cart) productID = [row] ->
        f CartItemUpdate = false ->
        exists st' evs,
          AddToCart f st userID productID d = (None, st', evs) /\
          checkQuery (tables st') (Cart_ID cart) productID = [add_quantity d row] /\
          ci_quantity (add_quantity d row) = ci_quantity row + d /\
          length (cart_items (tables st')) = length (cart_items (tables st))) /\
     (checkQuery (tables st) (Cart_ID cart) productID = [] ->
        f CartItemInsert = false ->
        exists st' evs,
          AddToCart f st userID productID d = (None, st', evs) /\
          cart_items (tables st')
            = cart_items (tables st) ++
              [mkCartItemRow (next_cart_item_id (autoinc st)) (Cart_ID cart) productID d] /\
          checkQuery (tables st') (Cart_ID cart) productID
            = [mkCartItemRow (next_cart_item_id (autoinc st)) (Cart_ID cart) productID d])).
Proof.
  intros Hcart Hpe.
  destruct (GetOrCreateCart_tables _ _ _ _ _ Hcart) as (Hprod & Hitems & Hnext).
  assert (Hcq : checkQuery (tables st1) (Cart_ID cart) productID
                = checkQuery (tables st) (Cart_ID cart) productID).
  { unfold checkQuery. now rewrite Hitems. }
  split; [exact Hitems|]. split.
  - intros Hex. unfold AddToCart. rewrite Hcart, Hpe, Hprod, Hex. reflexivity.
  - intros Hex Hsel. split.
    + intros row Hrow Hupd. unfold AddToCart.
      rewrite Hcart, Hpe, Hprod, Hex, Hsel, Hcq, Hrow, Hupd. simpl.
      eexists _, _. split; [reflexivity|]. simpl. split.
      { unfold checkQuery. simpl. apply checkQuery_update.
        rewrite Hitems. exact Hrow. }
      split; [reflexivity|]. now rewrite length_map, Hitems.
    + intros Hnone Hins. unfold AddToCart.
      rewrite Hcart, Hpe, Hprod, Hex, Hsel, Hcq, Hnone, Hins. simpl.
      eexists _, _. split; [reflexivity|]. simpl. rewrite Hitems, Hnext.
      split; [reflexivity|].
      unfold checkQuery in *. simpl. rewrite List.filter_app, Hnone. simpl.
      now rewrite !Z.eqb_refl.
Qed.

Lemma AddToCart_upsert_witness :
  (exists st' evs,
     AddToCart no_faults demo_store 7 1 3 = (None, st', evs) /\
     checkQuery (tables st') 1 1 = [mkCartItemRow 1 1 1 5]) /\
  (exists st' evs,
     AddToCart no_faults demo_store 9 8 4 = (None, st', evs) /\
     checkQuery (tables st') 2 8 = [mkCartItemRow 3 2 8 4]) /\
  AddToCart no_faults demo_store 7 999 1 = (Some ErrProductNotFound, demo_store, []).
Proof.
  destruct (AddToCart_upsert no_faults demo_store 7 1 3 (mkCart 1 7) demo_store
              eq_refl eq_refl) as (_ & _ & Hin).
  destruct (Hin eq_refl eq_refl) as (Hupd & _).
  destruct (Hupd (mkCartItemRow 1 1 1 2) eq_refl eq_refl) as (st' & evs & H & Hq & _).
  destruct (AddToCart_upsert no_faults demo_store 9 8 4 (mkCart 2 9) demo_store
              eq_refl eq_refl) as (_ & _ & Hin2).
  destruct (Hin2 eq_refl eq_refl) as (_ & Hnew).
  destruct (Hnew eq_refl eq_refl) as (st2 & evs2 & H2 & _ & Hq2).
  destruct (AddToCart_upsert no_faults demo_store 7 999 1 (mkCart 1 7) demo_store
              eq_refl eq_refl) as (_ & Hmissing & _).
  split; [exists st', evs; split; [exact H|exact Hq]|].
  split; [exists st2, evs2; split; [exact H2|exact Hq2]|].
  apply Hmissing. reflexivity.
Defined.

(** ** Category totals *)

Lemma categoryTotals_aggregate items :
  categoryTotals items = aggregateFrom (∅, ∅) (linesOfItems items).
Proof.
  unfold categoryTotals, aggregateFrom, linesOfItems.
  generalize ((∅, ∅) : gmap string Z * gmap string Z) as acc.
  induction items as [|it items IH]; intros acc; simpl; [reflexivity|]. apply IH.
Qed.


Lemma sumZ_Permutation l l' : Permutation l l' -> sumZ l = sumZ l'.
Proof.
  induction 1; simpl; lia.
Qed.








(** ** The events recorded per category *)

Lemma recordCategoryMetrics_revenue s pm cur totals :
  revenueAmounts (recordCategoryMetrics s pm cur totals)
    = map (fun kv : string * Z => default 0 (totals.1 !! kv.1)) (map_to_list totals.2) /\
  revenueCategories (recordCategoryMetrics s pm cur totals) = map fst (map_to_list totals.2) /\
  orderCounts (recordCategoryMetrics s pm cur totals) = map snd (map_to_list totals.2).
Proof.
  unfold recordCategoryMetrics, revenueAmounts, revenueCategories, orderCounts.
  induction (map_to_list totals.2) as [|[c n] l (IH1 & IH2 & IH3)]; simpl; [auto|].
  now rewrite IH1, IH2, IH3.
Qed.



(** ** UpdateOrderStatus to "completed" *)


Lemma itemQuery_updateStatusExec t status now orderID :
  itemQuery (fst (updateStatusExec t status now orderID)) orderID = itemQuery t orderID.
Proof. reflexivity. Qed.

Lemma filter_order_items_below l orderID :
  Forall (fun oi => oi_order_id oi < orderID) l ->
  List.filter (fun oi => oi_order_id oi =? orderID) l = [].
Proof.
  induction 1 as [|oi l Hoi _ IH]; simpl; [reflexivity|].
  destruct (Z.eqb_spec (oi_order_id oi) orderID); [lia|exact IH].
Qed.

Lemma filter_order_items_all l orderID :
  Forall (fun oi => oi_order_id oi = orderID) l ->
  List.filter (fun oi => oi_order_id oi =? orderID) l = l.
Proof.
  induction 1 as [|oi l Hoi _ IH]; simpl; [reflexivity|].
  rewrite Hoi, Z.eqb_refl. now f_equal.
Qed.

(** The total CreateOrder stores with the order is the total of the items
    it stores for it. *)
Lemma CreateOrder_total_is_items_total f now st userID pm cur order st' evs :
  CreateOrder f now st userID pm cur = (Ok order, st', evs) ->
  order_items_fresh st ->
  let orderID := next_order_id (autoinc st) in
  orderItemsTotal (tables st') orderID = snapshotTotal (snapshot f (tables st) userID) /\
  exists o, In o (orders (tables st')) /\ o_id o = orderID /\
            o_total_amount o = orderItemsTotal (tables st') orderID.
Proof.
  intros H Hfresh orderID.
  apply CreateOrder_ok in H as (_ & Ht & _ & _). fold orderID in Ht.
  destruct (orderItemRows_lines orderID
              (map lineOfRow (snapshot f (tables st) userID))
              (next_order_item_id (autoinc st))) as (_ & Hf & _ & Hs).
  assert (Htot : orderItemsTotal (tables st') orderID
                 = snapshotTotal (snapshot f (tables st) userID)).
  { unfold orderItemsTotal, orderItemsOf. rewrite Ht. simpl.
    rewrite List.filter_app.
    rewrite (filter_order_items_all _ _ Hf).
    unfold order_items_fresh in Hfresh. fold orderID in Hfresh.
    rewrite (filter_order_items_below _ _ Hfresh). simpl.
    rewrite Hs. apply snapshotTotal_lines. }
  split; [exact Htot|].
  eexists. split; [rewrite Ht; simpl; apply in_app_iff; right; left; reflexivity|].
  split; [reflexivity|]. simpl. now rewrite Htot.
Qed.

(** C7 (the code departs from it): an item whose product has a NULL
    category does not scan in the loop of UpdateOrderStatus and is
    skipped, while CreateOrder counts the same item under "unknown".  The
    order below is created with total 2029.95, and its creation emits
    that total, the samples' 29.97 under "unknown"; on completion only the
    laptops' 1999.98 are emitted. *)
Theorem UpdateOrderStatus_completed_skips_null_category :
  exists order st1 evs1 st2 evs2,
    CreateOrder no_faults 100 sample_cart_store 7 "paypal" "USD" = (Ok order, st1, evs1) /\
    Order_TotalAmount order = 202995 /\
    In (RevenueTotal 2997 "USD" "paypal" "unknown" "pending") evs1 /\
    sumZ (revenueAmounts evs1) = 202995 /\
    UpdateOrderStatus no_faults 200 st1 (Order_ID order) "completed" = (None, st2, evs2) /\
    revenueCategories evs2 = ["Electronics"] /\
    sumZ (revenueAmounts evs2) = 199998 /\
    ~ (sumZ (revenueAmounts evs2) = Order_TotalAmount order).
Proof.
  eexists _, _, _, _, _. split; [vm_compute; reflexivity|].
  split; [reflexivity|]. split; [simpl; tauto|]. split; [reflexivity|].
  split; [vm_compute; reflexivity|].
  split; [reflexivity|]. split; [reflexivity|]. vm_compute. discriminate.
Qed.



(** ** CreateOrder: the category read *)


Lemma rowsRead_congr f f' rows : forall i,
  same_but_categories f f' -> rowsRead f i rows = rowsRead f' i rows.
Proof.
  induction rows as [|r rows IH]; intros i Hf; simpl; rewrite (Hf (CartNext i));
    [reflexivity|].
  destruct (f' (CartNext i)); [reflexivity|]. now rewrite IH.
Qed.











(** When the category query fails, both lines of the demo cart are emitted
    under "unknown". *)
Example CreateOrder_category_query_fails :
  CreateOrder fail_at_category_query 100 demo_store 7 "paypal" "USD"
  = (Ok demo_order, demo_store_after,
     [OrdersCreated 2 "pending" "paypal" "unknown";
      RevenueTotal 205995 "USD" "paypal" "unknown" "pending"]).
Proof. vm_compute. reflexivity. Qed.

(** * Further properties of the services *)

(** ** GetOrCreateCart *)

Lemma filter_user_app cs userID id :
  List.filter (fun c => c_user_id c =? userID) (cs ++ [mkCartRow id userID])
  = List.filter (fun c => c_user_id c =? userID) cs ++ [mkCartRow id userID].
Proof. rewrite List.filter_app. simpl. now rewrite Z.eqb_refl. Qed.

Lemma filter_user_app_ne cs userID v id :
  v <> userID ->
  List.filter (fun c => c_user_id c =? v) (cs ++ [mkCartRow id userID])
  = List.filter (fun c => c_user_id c =? v) cs.
Proof.
  intros Hne. rewrite List.filter_app. simpl.
  destruct (Z.eqb_spec userID v); [congruence|]. now rewrite app_nil_r.
Qed.

Lemma first_row_None_nil {A} (l : list A) : first_row l = None -> l = [].
Proof. destruct l; [reflexivity|discriminate]. Qed.

(** A call that returned a cart is repeated by any later call on the store
    it left. *)
Lemma GetOrCreateCart_again f st userID cart st1 :
  GetOrCreateCart f st userID = (Ok cart, st1) ->
  GetOrCreateCart f st1 userID = (Ok cart, st1) /\
  first_row (List.filter (fun c => c_user_id c =? userID) (carts (tables st1)))
    = Some (mkCartRow (Cart_ID cart) (Cart_UserID cart)) /\
  Cart_UserID cart = userID.
Proof.
  unfold GetOrCreateCart. intros H.
  destruct (f CartSelect) eqn:Hs; [discriminate|].
  destruct (first_row (List.filter _ (carts (tables st)))) as [c|] eqn:Hc.
  - inversion H; subst cart st1; clear H. rewrite Hc. simpl.
    split; [reflexivity|].
    assert (Hu : c_user_id c = userID).
    { destruct (List.filter _ (carts (tables st))) as [|c0 l] eqn:Hf; [discriminate|].
      inversion Hc; subst c0.
      assert (Hin : In c (List.filter (fun c => c_user_id c =? userID) (carts (tables st))))
        by (rewrite Hf; now left).
      apply filter_In in Hin as [_ Hin]. now apply Z.eqb_eq. }
    split; [destruct c; reflexivity|exact Hu].
  - destruct (f CartInsert); [discriminate|].
    destruct (f CartLastInsertId); [discriminate|].
    inversion H; subst cart st1; clear H. simpl.
    apply first_row_None_nil in Hc. rewrite filter_user_app, Hc. simpl. auto.
Qed.

(** X1: GetOrCreateCart is idempotent: once it has returned a cart, calling
    it again for the same user returns the same cart and writes nothing,
    and that cart belongs to the user. *)
Theorem GetOrCreateCart_idempotent f st userID cart st1 :
  GetOrCreateCart f st userID = (Ok cart, st1) ->
  GetOrCreateCart f st1 userID = (Ok cart, st1) /\ Cart_UserID cart = userID.
Proof.
  intros H. destruct (GetOrCreateCart_again _ _ _ _ _ H) as (H1 & _ & H2). auto.
Qed.

Lemma GetOrCreateCart_idempotent_witness :
  GetOrCreateCart no_faults
    (mkStore (mkTables demo_products
                [mkCartRow 1 7; mkCartRow 2 9; mkCartRow 3 5]
                [mkCartItemRow 1 1 1 2; mkCartItemRow 2 1 8 3] [] [])
             (mkAutoInc 4 3 1 1)) 5
  = (Ok (mkCart 3 5),
     mkStore (mkTables demo_products
                [mkCartRow 1 7; mkCartRow 2 9; mkCartRow 3 5]
                [mkCartItemRow 1 1 1 2; mkCartItemRow 2 1 8 3] [] [])
             (mkAutoInc 4 3 1 1)).
Proof.
  apply (GetOrCreateCart_idempotent no_faults demo_store 5). reflexivity.
Defined.

Lemma GetOrCreateCart_single_cart f st userID r st1 :
  GetOrCreateCart f st userID = (r, st1) ->
  single_cart_per_user (tables st) -> single_cart_per_user (tables st1).
Proof.
  unfold GetOrCreateCart. intros H Hinv.
  destruct (f CartSelect); [inversion H; now subst|].
  destruct (first_row (List.filter _ (carts (tables st)))) as [c|] eqn:Hc;
    [inversion H; now subst|].
  destruct (f CartInsert); [inversion H; now subst|].
  apply first_row_None_nil in Hc.
  assert (Hgoal : single_cart_per_user
            (set_carts (tables st)
               (carts (tables st) ++ [mkCartRow (next_cart_id (autoinc st)) userID]))).
  { intros v. simpl. destruct (Z.eq_dec v userID) as [->|Hne].
    - rewrite filter_user_app, Hc. simpl. apply le_n.
    - rewrite filter_user_app_ne by assumption. apply Hinv. }
  destruct (f CartLastInsertId); inversion H; subst; exact Hgoal.
Qed.

(** ** What the operations leave in the store *)

(** CreateOrder either leaves the committed tables as they were, or has
    committed the order, its items and the cart clear. *)
Lemma CreateOrder_outcome f now st userID pm cur r st' evs :
  CreateOrder f now st userID pm cur = (r, st', evs) ->
  tables st' = tables st \/
  (snapshot f (tables st) userID <> [] /\
   tables st' = mkTables (products (tables st)) (carts (tables st))
     (clearedItems f (carts (tables st)) (cart_items (tables st)) userID)
     (orders (tables st) ++
        [mkOrderRow (next_order_id (autoinc st)) userID "pending" pm
           (snapshotTotal (snapshot f (tables st) userID)) cur now])
     (order_items (tables st) ++
        orderItemRows (next_order_item_id (autoinc st)) (next_order_id (autoinc st))
          (map lineOfRow (snapshot f (tables st) userID)))).
Proof.
  unfold CreateOrder. intros H.
  destruct (f BeginTx); [inversion H; auto|].
  destruct (createOrderTx _ _ _ _ _ _ _) as [[[[oid total] iwc]|e] s] eqn:Htx;
    [|inversion H; auto].
  destruct (f Commit); [inversion H; auto|].
  apply createOrderTx_ok in Htx as (Hsnap & -> & -> & -> & ->).
  right. split; [exact Hsnap|].
  destruct (GetOrder _ _ _); inversion H; reflexivity.
Qed.

Lemma clearedItems_incl f cs cis userID ci :
  In ci (clearedItems f cs cis userID) -> In ci cis.
Proof.
  unfold clearedItems. destruct (if f CartIDQuery then None else _) as [c|]; [|auto].
  destruct (f DeleteCartItems); [auto|]. intros H. now apply filter_In in H.
Qed.

(** AddToCart: the cart is resolved first; then either nothing more is
    written, or one row is appended, or the quantity of the rows with the
    id of the first row for the pair is raised. *)
Lemma AddToCart_outcome f st userID productID d r st' evs :
  AddToCart f st userID productID d = (r, st', evs) ->
  exists r1 st1,
    GetOrCreateCart f st userID = (r1, st1) /\
    (st' = st1 /\ r <> None \/
     (exists cart,
        r1 = Ok cart /\ r = None /\
        checkQuery (tables st1) (Cart_ID cart) productID = [] /\
        st' = mkStore
                (set_cart_items (tables st1)
                   (cart_items (tables st1) ++
                      [mkCartItemRow (next_cart_item_id (autoinc st1)) (Cart_ID cart)
                         productID d]))
                (bump_cart_item_id (autoinc st1))) \/
     (exists cart existing,
        r1 = Ok cart /\ r = None /\
        first_row (checkQuery (tables st1) (Cart_ID cart) productID) = Some existing /\
        st' = mkStore
                (set_cart_items (tables st1)
                   (map (fun ci => if ci_id ci =? ci_id existing
                                   then add_quantity d ci else ci)
                        (cart_items (tables st1))))
                (autoinc st1))).
Proof.
  unfold AddToCart. intros H.
  assert (Hleft : forall e st0, (Some e, st0, @nil Event) = (r, st', evs) ->
                  st' = st0 /\ r <> None).
  { intros e st0 E. inversion E. split; [reflexivity|discriminate]. }
  destruct (GetOrCreateCart f st userID) as [[cart|e] st1] eqn:Hc;
    [|exists (Err e), st1; split; [reflexivity|left; eauto]].
  exists (Ok cart), st1. split; [reflexivity|].
  destruct (f ProductExists); [left; eauto|].
  destruct (negb _); [left; eauto|].
  destruct (f CartItemSelect); [left; eauto|].
  destruct (first_row _) as [existing|] eqn:Hrow.
  - destruct (f CartItemUpdate); [left; eauto|].
    right. right. exists cart, existing. inversion H. auto.
  - destruct (f CartItemInsert); [left; eauto|].
    right. left. exists cart. apply first_row_None_nil in Hrow. inversion H. auto.
Qed.

Lemma RemoveFromCart_outcome g st userID productID r st' evs :
  RemoveFromCart g st userID productID = (r, st', evs) ->
  exists r1 st1,
    GetOrCreateCart (base g) st userID = (r1, st1) /\
    (st' = st1 /\ r <> None \/
     exists cart,
       r1 = Ok cart /\ r = None /\ g RemoveExec = false /\
       st' = mkStore (removeExec (tables st1) (Cart_ID cart) productID) (autoinc st1)).
Proof.
  unfold RemoveFromCart. intros H.
  destruct (GetOrCreateCart (base g) st userID) as [[cart|e] st1] eqn:Hc.
  - exists (Ok cart), st1. split; [reflexivity|].
    destruct (g RemoveExec) eqn:Hr.
    + left. inversion H. split; [reflexivity|discriminate].
    + right. exists cart. inversion H. auto.
  - exists (Err e), st1. split; [reflexivity|]. left. inversion H.
    split; [reflexivity|discriminate].
Qed.

Lemma GetCart_store g st userID resp err st' evs :
  GetCart g st userID = (resp, err, st', evs) ->
  exists r1, GetOrCreateCart (base g) st userID = (r1, st').
Proof.
  unfold GetCart. intros H.
  destruct (GetOrCreateCart (base g) st userID) as [[cart|e] st1] eqn:Hc.
  - exists (Ok cart). destruct (g GetCartQuery); [inversion H; reflexivity|].
    destruct (scanRows _ _ _ _ _ _) as [[lines rowsErr]|]; inversion H; reflexivity.
  - exists (Err e). inversion H. reflexivity.
Qed.

Lemma UpdateOrderStatus_store f now st orderID status r st' evs :
  UpdateOrderStatus f now st orderID status = (r, st', evs) ->
  st' = st /\ r <> None \/
  st' = mkStore (fst (updateStatusExec (tables st) status now orderID)) (autoinc st).
Proof.
  unfold UpdateOrderStatus. intros H.
  destruct (negb _); [left; inversion H; split; [reflexivity|discriminate]|].
  destruct (f UpdateExec); [left; inversion H; split; [reflexivity|discriminate]|].
  right. simpl in H.
  destruct (f RowsAffected); [now inversion H|].
  destruct (_ =? 0); [now inversion H|].
  destruct (String.eqb status "completed"); [|now inversion H].
  destruct (GetOrder _ _ _); [|now inversion H].
  destruct (f ItemQuery); now inversion H.
Qed.

(** X2: when no user owns two cart rows, no operation of the services
    changes that: GetOrCreateCart inserts a cart only for a user who has
    none, and AddToCart, RemoveFromCart, GetCart, CreateOrder and
    UpdateOrderStatus insert carts through it or not at all. *)
Theorem single_cart_preserved st :
  single_cart_per_user (tables st) ->
  (forall f userID r st', GetOrCreateCart f st userID = (r, st') ->
     single_cart_per_user (tables st')) /\
  (forall f userID productID d r st' evs,
     AddToCart f st userID productID d = (r, st', evs) ->
     single_cart_per_user (tables st')) /\
  (forall g userID productID r st' evs,
     RemoveFromCart g st userID productID = (r, st', evs) ->
     single_cart_per_user (tables st')) /\
  (forall g userID resp err st' evs,
     GetCart g st userID = (resp, err, st', evs) ->
     single_cart_per_user (tables st')) /\
  (forall f now userID pm cur r st' evs,
     CreateOrder f now st userID pm cur = (r, st', evs) ->
     single_cart_per_user (tables st')) /\
  (forall f now orderID status r st' evs,
     UpdateOrderStatus f now st orderID status = (r, st', evs) ->
     single_cart_per_user (tables st')).
Proof.
  intros Hinv. repeat split.
  - intros f userID r st' H. eapply GetOrCreateCart_single_cart; eauto.
  - intros f userID productID d r st' evs H.
    apply AddToCart_outcome in H as (r1 & st1 & Hc & H).
    pose proof (GetOrCreateCart_single_cart _ _ _ _ _ Hc Hinv) as H1.
    destruct H as [[-> _]|[(cart & _ & _ & _ & ->)|(cart & ex & _ & _ & _ & ->)]]; exact H1.
  - intros g userID productID r st' evs H.
    apply RemoveFromCart_outcome in H as (r1 & st1 & Hc & H).
    pose proof (GetOrCreateCart_single_cart _ _ _ _ _ Hc Hinv) as H1.
    destruct H as [[-> _]|(cart & _ & _ & _ & ->)]; exact H1.
  - intros g userID resp err st' evs H.
    apply GetCart_store in H as (r1 & Hc).
    eapply GetOrCreateCart_single_cart; eauto.
  - intros f now userID pm cur r st' evs H.
    apply CreateOrder_outcome in H as [->|[_ ->]]; exact Hinv.
  - intros f now orderID status r st' evs H.
    apply UpdateOrderStatus_store in H as [[-> _]| ->]; exact Hinv.
Qed.

Lemma demo_store_single_cart : single_cart_per_user (tables demo_store).
Proof.
  intros u. cbn -[Z.eqb].
  destruct (Z.eqb_spec 7 u), (Z.eqb_spec 9 u); cbn; lia.
Qed.

Lemma single_cart_preserved_witness :
  single_cart_per_user (tables demo_store_after).
Proof.
  destruct (single_cart_preserved demo_store) as (_ & _ & _ & _ & H & _).
  - intros u. cbn -[Z.eqb]. destruct (Z.eqb_spec 7 u), (Z.eqb_spec 9 u); cbn; lia.
  - apply (H no_faults 100 7 "paypal" "USD" (Ok demo_order) demo_store_after demo_events).
    vm_compute. reflexivity.
Defined.

(** ** RemoveFromCart and AddToCart *)

Lemma filter_negb_idem {A} (p : A -> bool) (l : list A) :
  List.filter (fun x => negb (p x)) (List.filter (fun x => negb (p x)) l)
  = List.filter (fun x => negb (p x)) l.
Proof.
  induction l as [|x l IH]; simpl; [reflexivity|].
  destruct (p x) eqn:Hp; simpl; [assumption|]. now rewrite Hp, IH.
Qed.

Lemma filter_nil_negb {A} (p : A -> bool) (l : list A) :
  List.filter p l = [] -> List.filter (fun x => negb (p x)) l = l.
Proof.
  induction l as [|x l IH]; simpl; [reflexivity|].
  destruct (p x); [discriminate|]. simpl. intros H. now rewrite IH.
Qed.

Lemma GetOrCreateCart_found f st userID c :
  f CartSelect = false ->
  first_row (List.filter (fun c => c_user_id c =? userID) (carts (tables st))) = Some c ->
  GetOrCreateCart f st userID = (Ok (mkCart (c_id c) (c_user_id c)), st).
Proof. intros Hs Hc. unfold GetOrCreateCart. now rewrite Hs, Hc. Qed.

Lemma GetOrCreateCart_select f st userID cart st1 :
  GetOrCreateCart f st userID = (Ok cart, st1) -> f CartSelect = false.
Proof.
  unfold GetOrCreateCart. destruct (f CartSelect); [discriminate|reflexivity].
Qed.

(** X3: a successful RemoveFromCart leaves no cart item for the product in
    the user's cart and exactly the other cart items, in their order; in
    particular removing a product that is not in the cart deletes nothing.
    Products, orders and order items are not touched. *)
Theorem RemoveFromCart_removes g st userID productID st' evs :
  RemoveFromCart g st userID productID = (None, st', evs) ->
  exists cart st1,
    GetOrCreateCart (base g) st userID = (Ok cart, st1) /\
    checkQuery (tables st') (Cart_ID cart) productID = [] /\
    cart_items (tables st') = other_cart_items (tables st) (Cart_ID cart) productID /\
    (checkQuery (tables st) (Cart_ID cart) productID = [] ->
     cart_items (tables st') = cart_items (tables st)) /\
    products (tables st') = products (tables st) /\
    orders (tables st') = orders (tables st) /\
    order_items (tables st') = order_items (tables st).
Proof.
  intros H. apply RemoveFromCart_outcome in H as (r1 & st1 & Hc & H).
  destruct H as [[_ Hr]|(cart & -> & _ & _ & ->)]; [congruence|].
  exists cart, st1. split; [exact Hc|].
  destruct (GetOrCreateCart_tables _ _ _ _ _ Hc) as (Hp & Hi & _).
  assert (Hrest : orders (tables st1) = orders (tables st)
                  /\ order_items (tables st1) = order_items (tables st)).
  { revert Hc. unfold GetOrCreateCart.
    destruct (base g CartSelect); [intros E; inversion E; auto|].
    destruct (first_row _); [intros E; inversion E; auto|].
    destruct (base g CartInsert); [intros E; inversion E; auto|].
    destruct (base g CartLastInsertId); intros E; inversion E; auto. }
  destruct Hrest as [Ho Hoi].
  unfold checkQuery, other_cart_items, removeExec. simpl. rewrite Hi.
  split; [apply (filter_negb_filter
                   (fun ci => (ci_cart_id ci =? Cart_ID cart) && (ci_product_id ci =? productID)))|].
  split; [reflexivity|]. split; [|auto].
  apply (filter_nil_negb
           (fun ci => (ci_cart_id ci =? Cart_ID cart) && (ci_product_id ci =? productID))).
Qed.

Lemma RemoveFromCart_removes_witness :
  exists cart st1,
    GetOrCreateCart (base no_svc_faults) demo_store 7 = (Ok cart, st1) /\
    checkQuery
      (tables (mkStore (mkTables demo_products [mkCartRow 1 7; mkCartRow 2 9]
                          [mkCartItemRow 1 1 1 2] [] [])
                       (mkAutoInc 3 3 1 1)))
      (Cart_ID cart) 8 = [].
Proof.
  destruct (RemoveFromCart_removes no_svc_faults demo_store 7 8
              (mkStore (mkTables demo_products [mkCartRow 1 7; mkCartRow 2 9]
                          [mkCartItemRow 1 1 1 2] [] [])
                       (mkAutoInc 3 3 1 1))
              [CartItemsCount 1 7])
    as (cart & st1 & Hc & Hq & _).
  - vm_compute. reflexivity.
  - exists cart, st1. split; [exact Hc|exact Hq].
Defined.

(** X4: after a successful AddToCart, a RemoveFromCart of the same product
    (its DELETE not failing) succeeds and leaves no row for the product in
    the user's cart, whatever quantity was there before; when the product
    was not in the cart before the AddToCart, the cart items are again
    exactly those from before it. *)
Theorem AddToCart_then_RemoveFromCart g st userID productID d st1 evs1 :
  AddToCart (base g) st userID productID d = (None, st1, evs1) ->
  g RemoveExec = false ->
  exists cart st0 st2 evs2,
    GetOrCreateCart (base g) st userID = (Ok cart, st0) /\
    RemoveFromCart g st1 userID productID = (None, st2, evs2) /\
    checkQuery (tables st2) (Cart_ID cart) productID = [] /\
    (checkQuery (tables st) (Cart_ID cart) productID = [] ->
     cart_items (tables st2) = cart_items (tables st)).
Proof.
  intros H Hrm. apply AddToCart_outcome in H as (r1 & st0 & Hc & H).
  assert (Hcase : exists cart l,
            r1 = Ok cart /\ carts (tables st1) = carts (tables st0) /\
            cart_items (tables st1) = l /\
            (checkQuery (tables st0) (Cart_ID cart) productID = [] ->
             exists row, l = cart_items (tables st0) ++ [row] /\
                         ci_cart_id row = Cart_ID cart /\ ci_product_id row = productID)).
  { destruct H as [[_ Hr]|[(cart & -> & _ & Hq & ->)|(cart & ex & -> & _ & Hrow & ->)]];
      [congruence| |].
    - exists cart. eexists. repeat split. intros _. eexists. repeat split.
    - exists cart. eexists. repeat split. intros Hq. rewrite Hq in Hrow. discriminate. }
  destruct Hcase as (cart & l & -> & Hcarts & Hl & Hnew).
  destruct (GetOrCreateCart_again _ _ _ _ _ Hc) as (_ & Hfirst & _).
  pose proof (GetOrCreateCart_select _ _ _ _ _ Hc) as Hsel.
  destruct (GetOrCreateCart_tables _ _ _ _ _ Hc) as (_ & Hi0 & _).
  assert (Hc1 : GetOrCreateCart (base g) st1 userID = (Ok cart, st1)).
  { rewrite (GetOrCreateCart_found (base g) st1 userID
               (mkCartRow (Cart_ID cart) (Cart_UserID cart)) Hsel).
    - destruct cart; reflexivity.
    - now rewrite Hcarts. }
  exists cart, st0. eexists _, _. split; [exact Hc|].
  unfold RemoveFromCart. rewrite Hc1, Hrm. split; [reflexivity|].
  unfold checkQuery, removeExec. simpl. split.
  - apply (filter_negb_filter
             (fun ci => (ci_cart_id ci =? Cart_ID cart) && (ci_product_id ci =? productID))).
  - intros Hq. rewrite Hl.
    assert (Hq0 : checkQuery (tables st0) (Cart_ID cart) productID = []).
    { unfold checkQuery. rewrite Hi0. exact Hq. }
    destruct (Hnew Hq0) as (row & -> & Hrc & Hrp).
    rewrite List.filter_app. simpl. rewrite Hrc, Hrp, !Z.eqb_refl. simpl.
    rewrite app_nil_r, Hi0.
    apply (filter_nil_negb
             (fun ci => (ci_cart_id ci =? Cart_ID cart) && (ci_product_id ci =? productID))).
    exact Hq.
Qed.

Lemma AddToCart_then_RemoveFromCart_witness :
  exists st1 evs1 st2 evs2,
    AddToCart (base no_svc_faults) demo_store 9 8 4 = (None, st1, evs1) /\
    RemoveFromCart no_svc_faults st1 9 8 = (None, st2, evs2) /\
    cart_items (tables st2) = cart_items (tables demo_store).
Proof.
  destruct (AddToCart (base no_svc_faults) demo_store 9 8 4) as [[r st1] evs1] eqn:H.
  assert (Hr : r = None) by (vm_compute in H; congruence). subst r.
  destruct (AddToCart_then_RemoveFromCart no_svc_faults demo_store 9 8 4 st1 evs1 H eq_refl)
    as (cart & st0 & st2 & evs2 & Hc & Hrm & _ & Hsame).
  exists st1, evs1, st2, evs2. split; [reflexivity|]. split; [exact Hrm|].
  apply Hsame. vm_compute in Hc. inversion Hc. reflexivity.
Defined.

(** ** Invariants of the cart items *)

Lemma NoDup_map_filter {A B} (h : A -> B) (p : A -> bool) (l : list A) :
  NoDup (map h l) -> NoDup (map h (List.filter p l)).
Proof.
  induction l as [|x l IH]; simpl; intros H; [constructor|].
  apply NoDup_cons in H as [Hx Hl]. destruct (p x); simpl; [|auto].
  apply NoDup_cons. split; [|auto].
  intros Hin. apply Hx. apply list_elem_of_In. apply list_elem_of_In in Hin.
  apply in_map_iff in Hin as (y & Hy & Hin). apply filter_In in Hin as [Hin _].
  apply in_map_iff. eauto.
Qed.

Lemma map_cart_pair_update d id l :
  map cart_pair (map (fun ci => if ci_id ci =? id then add_quantity d ci else ci) l)
  = map cart_pair l.
Proof.
  rewrite map_map. apply map_ext. intros ci. destruct (ci_id ci =? id); reflexivity.
Qed.

Lemma checkQuery_nil_pair t cartID productID :
  checkQuery t cartID productID = [] ->
  ~ In (cartID, productID) (map cart_pair (cart_items t)).
Proof.
  unfold checkQuery. intros Hq Hin.
  apply in_map_iff in Hin as (ci & Hp & Hin). inversion Hp as [[Hc Hpr]].
  assert (Hf : In ci (List.filter
                 (fun ci => (ci_cart_id ci =? cartID) && (ci_product_id ci =? productID))
                 (cart_items t))).
  { apply filter_In. split; [exact Hin|]. now rewrite Hc, Hpr, !Z.eqb_refl. }
  rewrite Hq in Hf. destruct Hf.
Qed.

(** X5: when no (cart, product) pair has two cart-item rows, none has two
    after AddToCart, RemoveFromCart or CreateOrder, whatever their outcome:
    AddToCart inserts a row only for a pair that has none. *)
Theorem cart_pairs_unique_preserved st :
  cart_pairs_unique (tables st) ->
  (forall f userID productID d r st' evs,
     AddToCart f st userID productID d = (r, st', evs) ->
     cart_pairs_unique (tables st')) /\
  (forall g userID productID r st' evs,
     RemoveFromCart g st userID productID = (r, st', evs) ->
     cart_pairs_unique (tables st')) /\
  (forall f now userID pm cur r st' evs,
     CreateOrder f now st userID pm cur = (r, st', evs) ->
     cart_pairs_unique (tables st')).
Proof.
  unfold cart_pairs_unique. intros Hinv. repeat split.
  - intros f userID productID d r st' evs H.
    apply AddToCart_outcome in H as (r1 & st1 & Hc & H).
    destruct (GetOrCreateCart_tables _ _ _ _ _ Hc) as (_ & Hi & _).
    destruct H as [[-> _]|[(cart & _ & _ & Hq & ->)|(cart & ex & _ & _ & _ & ->)]]; simpl.
    + now rewrite Hi.
    + rewrite map_app. simpl. apply NoDup_app. rewrite Hi. split; [exact Hinv|].
      split; [|apply NoDup_singleton].
      intros x Hx Hx'. apply list_elem_of_In in Hx. apply list_elem_of_In in Hx'.
      destruct Hx' as [<-|[]]. apply checkQuery_nil_pair in Hq. apply Hq.
      now rewrite Hi.
    + now rewrite map_cart_pair_update, Hi.
  - intros g userID productID r st' evs H.
    apply RemoveFromCart_outcome in H as (r1 & st1 & Hc & H).
    destruct (GetOrCreateCart_tables _ _ _ _ _ Hc) as (_ & Hi & _).
    destruct H as [[-> _]|(cart & _ & _ & _ & ->)]; simpl.
    + now rewrite Hi.
    + rewrite Hi. now apply NoDup_map_filter.
  - intros f now userID pm cur r st' evs H.
    apply CreateOrder_outcome in H as [->|[_ ->]]; [exact Hinv|]. simpl.
    unfold clearedItems. destruct (if f CartIDQuery then None else _); [|exact Hinv].
    destruct (f DeleteCartItems); [exact Hinv|]. now apply NoDup_map_filter.
Qed.

Lemma cart_pairs_unique_preserved_witness :
  cart_pairs_unique (tables demo_store_added).
Proof.
  destruct (cart_pairs_unique_preserved demo_store) as (H & _ & _).
  - unfold cart_pairs_unique. vm_compute.
    repeat (apply NoDup_cons; split; [rewrite list_elem_of_In; simpl; intuition congruence|]).
    apply NoDup_nil. exact I.
  - apply (H no_faults 7 1 3 None demo_store_added [CartItemsCount 2 7]).
    vm_compute. reflexivity.
Defined.

Lemma NoDup_map_inj {A B} (h : A -> B) (l : list A) x y :
  NoDup (map h l) -> In x l -> In y l -> h x = h y -> x = y.
Proof.
  induction l as [|a l IH]; simpl; intros Hnd Hx Hy Heq; [destruct Hx|].
  apply NoDup_cons in Hnd as [Ha Hl].
  destruct Hx as [->|Hx], Hy as [->|Hy]; auto.
  - exfalso. apply Ha. apply list_elem_of_In. rewrite Heq. now apply in_map.
  - exfalso. apply Ha. apply list_elem_of_In. rewrite <- Heq. now apply in_map.
Qed.

Lemma filter_map_fixed {A} (p : A -> bool) (h : A -> A) (l : list A) :
  (forall x, In x l -> p (h x) = p x) ->
  (forall x, In x l -> p x = true -> h x = x) ->
  List.filter p (map h l) = List.filter p l.
Proof.
  induction l as [|x l IH]; simpl; intros Hp Hh; [reflexivity|].
  rewrite Hp by auto. destruct (p x) eqn:Hx.
  - rewrite Hh by auto. f_equal. apply IH; auto.
  - apply IH; auto.
Qed.

(** X6: with the primary key of cart_items unique, AddToCart changes no
    cart item outside the (cart, product) pair it is called for, whatever
    its outcome, and never touches products, orders or order items. *)
Theorem AddToCart_frame f st userID productID d r st' evs :
  AddToCart f st userID productID d = (r, st', evs) ->
  cart_item_ids_unique (tables st) ->
  (forall cart st1, GetOrCreateCart f st userID = (Ok cart, st1) ->
     other_cart_items (tables st') (Cart_ID cart) productID
     = other_cart_items (tables st) (Cart_ID cart) productID) /\
  (r <> None -> cart_items (tables st') = cart_items (tables st)) /\
  products (tables st') = products (tables st) /\
  orders (tables st') = orders (tables st) /\
  order_items (tables st') = order_items (tables st).
Proof.
  intros H Hids. apply AddToCart_outcome in H as (r1 & st1 & Hc & H).
  destruct (GetOrCreateCart_tables _ _ _ _ _ Hc) as (Hp & Hi & _).
  assert (Hrest : orders (tables st1) = orders (tables st)
                  /\ order_items (tables st1) = order_items (tables st)).
  { revert Hc. unfold GetOrCreateCart.
    destruct (f CartSelect); [intros E; inversion E; auto|].
    destruct (first_row _); [intros E; inversion E; auto|].
    destruct (f CartInsert); [intros E; inversion E; auto|].
    destruct (f CartLastInsertId); intros E; inversion E; auto. }
  destruct Hrest as [Ho Hoi].
  destruct H as [[-> Hr]|[(cart & -> & -> & Hq & ->)|(cart & ex & -> & -> & Hrow & ->)]].
  - split; [|auto]. intros cart st0 E. unfold other_cart_items. now rewrite Hi.
  - split; [|split; [congruence|auto]].
    intros cart0 st0 E. rewrite Hc in E. inversion E; subst cart0 st0.
    unfold other_cart_items. simpl. rewrite List.filter_app. simpl.
    rewrite !Z.eqb_refl. simpl. now rewrite app_nil_r, Hi.
  - split; [|split; [congruence|auto]].
    intros cart0 st0 E. rewrite Hc in E. inversion E; subst cart0 st0.
    unfold other_cart_items. simpl. rewrite <- Hi.
    assert (Hex : In ex (cart_items (tables st1))
                  /\ (ci_cart_id ex =? Cart_ID cart) && (ci_product_id ex =? productID) = true).
    { unfold checkQuery in Hrow.
      destruct (List.filter _ (cart_items (tables st1))) as [|e0 l] eqn:Hf; [discriminate|].
      inversion Hrow; subst e0.
      assert (Hin : In ex (List.filter
                (fun ci => (ci_cart_id ci =? Cart_ID cart) && (ci_product_id ci =? productID))
                (cart_items (tables st1)))) by (rewrite Hf; now left).
      now apply filter_In in Hin. }
    destruct Hex as [Hin Hpair].
    apply filter_map_fixed.
    + intros ci _. destruct (ci_id ci =? ci_id ex); reflexivity.
    + intros ci Hci Hout. destruct (Z.eqb_spec (ci_id ci) (ci_id ex)) as [E'|]; [|reflexivity].
      exfalso. unfold cart_item_ids_unique in Hids. rewrite <- Hi in Hids.
      assert (ci = ex) by (eapply (NoDup_map_inj ci_id); eauto). subst ci.
      rewrite Hpair in Hout. discriminate.
Qed.

Lemma AddToCart_frame_witness :
  other_cart_items (tables demo_store_added) 1 1 = [mkCartItemRow 2 1 8 3].
Proof.
  destruct (AddToCart_frame no_faults demo_store 7 1 3 None demo_store_added
              [CartItemsCount 2 7]) as (Hf & _).
  - vm_compute. reflexivity.
  - unfold cart_item_ids_unique. vm_compute.
    repeat (apply NoDup_cons; split; [rewrite list_elem_of_In; simpl; intuition congruence|]).
    apply NoDup_nil. exact I.
  - exact (Hf (mkCart 1 7) demo_store eq_refl).
Defined.

(** ** GetCart *)

Lemma scanRows_no_fault {R A} (next scan : nat -> bool) (read : R -> option A)
    (rows : list R) (vals : list A) : forall i acc,
  (forall j, next j = false) -> (forall j, scan j = false) ->
  Forall2 (fun r a => read r = Some a) rows vals ->
  scanRows next scan read i rows acc = Some (acc ++ vals, false).
Proof.
  intros i acc Hn Hs H. revert i acc.
  induction H as [|r a rows vals Hr _ IH]; intros i acc; simpl; rewrite Hn.
  - now rewrite app_nil_r.
  - rewrite Hs, Hr, IH, <- app_assoc. reflexivity.
Qed.

Lemma flat_map_nil {A B} (l : list A) : flat_map (fun _ : A => @nil B) l = [].
Proof. induction l; simpl; auto. Qed.

(** For a user with a single cart row, the rows GetCart reads are the rows
    of the snapshot CreateOrder reads. *)
Lemma getCartQuery_cartQuery t userID c :
  List.filter (fun c => c_user_id c =? userID) (carts t) = [c] ->
  map (fun r : CartItemRow * Z => (ci_product_id r.1, ci_quantity r.1, r.2))
      (getCartQuery t (c_id c))
  = cartQuery t userID.
Proof.
  intros Hc. unfold getCartQuery, cartQuery.
  assert (Hf : forall ci,
    List.filter (fun c0 => (ci_cart_id ci =? c_id c0) && (c_user_id c0 =? userID)) (carts t)
    = if ci_cart_id ci =? c_id c then [c] else []).
  { intros ci. revert Hc. generalize (carts t) as cs.
    induction cs as [|c0 cs IH]; simpl; [discriminate|].
    destruct (c_user_id c0 =? userID) eqn:Hu.
    - intros E. injection E as E0 Ecs. subst c0. rewrite andb_true_r.
      assert (Hnil : List.filter
                (fun c0 => (ci_cart_id ci =? c_id c0) && (c_user_id c0 =? userID)) cs = []).
      { clear IH. revert Ecs. induction cs as [|c1 cs IH]; simpl; [reflexivity|].
        destruct (c_user_id c1 =? userID); [discriminate|].
        rewrite andb_false_r. exact IH. }
      rewrite Hnil. destruct (ci_cart_id ci =? c_id c); reflexivity.
    - rewrite andb_false_r. exact IH. }
  generalize (cart_items t) as cis.
  induction cis as [|ci cis IH]; simpl; [reflexivity|].
  rewrite Hf. destruct (ci_cart_id ci =? c_id c); simpl.
  - rewrite map_app, IH. f_equal.
    generalize (List.filter (fun p => ci_product_id ci =? p_id p) (products t)) as ps.
    induction ps as [|p ps IHp]; simpl; [reflexivity|]. now rewrite IHp.
  - rewrite flat_map_nil. exact IH.
Qed.

(** X7: for a user who owns exactly one cart row, a GetCart whose reads
    give no error writes nothing and returns that cart with one item per
    row of the cart query of CreateOrder, with the same products and
    quantities in the same order; and a CreateOrder on the same store
    whose read of the cart is not cut short orders what GetCart showed:
    the order items it inserts have those products and quantities. *)
Theorem GetCart_items g st userID c :
  List.filter (fun c => c_user_id c =? userID) (carts (tables st)) = [c] ->
  g (Base CartSelect) = false -> g GetCartQuery = false ->
  (forall i, g (GetCartNext i) = false) -> (forall i, g (GetCartScan i) = false) ->
  exists resp evs,
    GetCart g st userID = (Some resp, None, st, evs) /\
    Cart_ID (CartResponse_Cart resp) = c_id c /\
    map (fun it => (CartItem_ProductID it, CartItem_Quantity it)) (CartResponse_Items resp)
      = map (fun r : Z * Z * Z => (r.1.1, r.1.2)) (cartQuery (tables st) userID) /\
    forall f now pm cur order st' evs',
      CreateOrder f now st userID pm cur = (Ok order, st', evs') ->
      (forall i, f (CartNext i) = false) ->
      exists rows,
        order_items (tables st') = order_items (tables st) ++ rows /\
        map (fun oi => (oi_product_id oi, oi_quantity oi)) rows
        = map (fun it => (CartItem_ProductID it, CartItem_Quantity it))
              (CartResponse_Items resp).
Proof.
  intros Hc Hsel Hq Hnext Hscan.
  unfold GetCart.
  rewrite (GetOrCreateCart_found (base g) st userID c) by (auto; now rewrite Hc).
  rewrite Hq. cbn [Cart_ID].
  rewrite (scanRows_no_fault _ _ _ _
             (map (fun r : CartItemRow * Z => cartItem_of_row r.1)
                  (getCartQuery (tables st) (c_id c)))) by
    (auto; generalize (getCartQuery (tables st) (c_id c)) as l;
     induction l; constructor; auto).
  simpl. eexists _, _. split; [reflexivity|]. simpl.
  pose proof (getCartQuery_cartQuery (tables st) userID c Hc) as Hrel.
  assert (Hitems :
    map (fun it => (CartItem_ProductID it, CartItem_Quantity it))
        (map (fun r : CartItemRow * Z => cartItem_of_row r.1)
             (getCartQuery (tables st) (c_id c)))
    = map (fun r : Z * Z * Z => (r.1.1, r.1.2)) (cartQuery (tables st) userID)).
  { rewrite <- Hrel, !map_map. reflexivity. }
  split; [reflexivity|]. split; [exact Hitems|].
  intros f now pm cur order st' evs' Hco Hall.
  apply CreateOrder_ok in Hco as (_ & Ht & _ & _).
  rewrite (snapshot_all f) in Ht by exact Hall.
  destruct (orderItemRows_lines (next_order_id (autoinc st))
              (map lineOfRow (cartQuery (tables st) userID))
              (next_order_item_id (autoinc st))) as (Hm & _).
  eexists. split; [rewrite Ht; reflexivity|].
  rewrite Hitems.
  apply (f_equal (map (fun it => (ProductID it, Quantity it)))) in Hm.
  rewrite !map_map in Hm. simpl in Hm. rewrite Hm.
  apply map_ext. now intros [[pid qty] pr].
Qed.

Lemma GetCart_items_witness :
  exists resp evs,
    GetCart no_svc_faults demo_store 7 = (Some resp, None, demo_store, evs) /\
    map (fun it => (CartItem_ProductID it, CartItem_Quantity it)) (CartResponse_Items resp)
    = [(1, 2); (8, 3)].
Proof.
  destruct (GetCart_items no_svc_faults demo_store 7 (mkCartRow 1 7))
    as (resp & evs & H & _ & Hitems & _).
  - reflexivity.
  - reflexivity.
  - reflexivity.
  - reflexivity.
  - reflexivity.
  - exists resp, evs. split; [exact H|]. rewrite Hitems. reflexivity.
Defined.

(** ** CreateOrder: what follows a call *)

Lemma cartQuery_cleared t userID c cis os ois :
  List.filter (fun c => c_user_id c =? userID) (carts t) = [c] ->
  cartQuery (mkTables (products t) (carts t)
               (List.filter (fun ci => negb (ci_cart_id ci =? c_id c)) cis) os ois) userID
  = [].
Proof.
  intros Hc.
  rewrite <- (getCartQuery_cartQuery _ userID c) by exact Hc.
  unfold getCartQuery. simpl.
  rewrite (filter_negb_filter (fun ci => ci_cart_id ci =? c_id c)). reflexivity.
Qed.

(** X8: after a successful CreateOrder whose clear step gave no error, for
    a user who owns one cart row, a second CreateOrder for that user fails
    and changes nothing, whatever the store does; it fails with "cart is
    empty" when the transaction opens and the cart is read. *)
Theorem CreateOrder_twice f now st userID pm cur order st' evs :
  CreateOrder f now st userID pm cur = (Ok order, st', evs) ->
  f CartIDQuery = false -> f DeleteCartItems = false ->
  Nat.le (length (List.filter (fun c => c_user_id c =? userID) (carts (tables st)))) 1 ->
  forall f' now' pm' cur',
    exists e, CreateOrder f' now' st' userID pm' cur' = (Err e, st', []) /\
      (f' BeginTx = false -> f' CartQuery = false -> e = ErrCartEmpty).
Proof.
  intros H Hq Hd Hone f' now' pm' cur'.
  apply CreateOrder_ok in H as (Hsnap & Ht & _ & _).
  destruct (List.filter (fun c => c_user_id c =? userID) (carts (tables st)))
    as [|c [|c1 cs]] eqn:Hf.
  - exfalso. apply Hsnap. now apply snapshot_nil, cartQuery_no_cart.
  - apply CreateOrder_on_empty. rewrite Ht.
    unfold clearedItems. rewrite Hq, Hf, Hd. simpl.
    now apply (cartQuery_cleared (tables st)).
  - simpl in Hone. lia.
Qed.

Lemma CreateOrder_twice_witness :
  exists e, CreateOrder no_faults 100 demo_store_after 7 "paypal" "USD"
            = (Err e, demo_store_after, []) /\
    (no_faults BeginTx = false -> no_faults CartQuery = false -> e = ErrCartEmpty).
Proof.
  apply (CreateOrder_twice no_faults 100 demo_store 7 "paypal" "USD" demo_order
           demo_store_after demo_events).
  - vm_compute. reflexivity.
  - reflexivity.
  - reflexivity.
  - vm_compute. apply le_n.
Defined.

(** X9: CreateOrder can fail after it has committed.  When only the re-read
    of the new order fails, the caller gets "failed to get order" and no
    metric is recorded, yet the order row and its items are committed and
    the cart is cleared. *)
Theorem CreateOrder_error_after_commit now st userID pm cur :
  cartQuery (tables st) userID <> [] ->
  exists st',
    CreateOrder fail_at_reread now st userID pm cur = (Err ErrGetOrder, st', []) /\
    orders (tables st') = orders (tables st) ++
      [mkOrderRow (next_order_id (autoinc st)) userID "pending" pm
         (snapshotTotal (cartQuery (tables st) userID)) cur now] /\
    order_items (tables st') = order_items (tables st) ++
      orderItemRows (next_order_item_id (autoinc st)) (next_order_id (autoinc st))
        (map lineOfRow (cartQuery (tables st) userID)) /\
    cart_items (tables st')
      = clearedItems fail_at_reread (carts (tables st)) (cart_items (tables st)) userID.
Proof.
  intros Hsnap.
  assert (Hall : snapshot fail_at_reread (tables st) userID = cartQuery (tables st) userID)
    by (now apply snapshot_all).
  destruct (createOrderTx_runs fail_at_reread now (tables st) userID pm cur
              (tables st) (autoinc st))
    as ([[oid total] iwc] & s & Htx); try reflexivity.
  { now rewrite Hall. }
  unfold CreateOrder. simpl. rewrite Htx. simpl.
  apply createOrderTx_ok in Htx as (_ & -> & -> & -> & ->). rewrite Hall.
  eexists. split; [reflexivity|]. simpl. auto.
Qed.

Lemma CreateOrder_error_after_commit_witness :
  exists st',
    CreateOrder fail_at_reread 100 demo_store 7 "paypal" "USD"
      = (Err ErrGetOrder, st', []) /\
    orders (tables st') = [mkOrderRow 1 7 "pending" "paypal" 205995 "USD" 100].
Proof.
  destruct (CreateOrder_error_after_commit 100 demo_store 7 "paypal" "USD")
    as (st' & H & Ho & _).
  - vm_compute. discriminate.
  - exists st'. split; [exact H|]. rewrite Ho. reflexivity.
Defined.

(** X10: whatever its outcome, CreateOrder never changes the catalog or the
    cart rows and never adds a cart item; cart items whose cart is not a
    cart of the user survive it; and the orders and order items that were
    there stay, in place, as a prefix of the tables. *)
Theorem CreateOrder_frame f now st userID pm cur r st' evs :
  CreateOrder f now st userID pm cur = (r, st', evs) ->
  products (tables st') = products (tables st) /\
  carts (tables st') = carts (tables st) /\
  (forall ci, In ci (cart_items (tables st')) -> In ci (cart_items (tables st))) /\
  (forall ci, In ci (cart_items (tables st)) ->
     (forall c, In c (carts (tables st)) -> c_user_id c = userID ->
                ci_cart_id ci <> c_id c) ->
     In ci (cart_items (tables st'))) /\
  (exists new, orders (tables st') = orders (tables st) ++ new /\ Nat.le (length new) 1) /\
  (exists new, order_items (tables st') = order_items (tables st) ++ new).
Proof.
  intros H. apply CreateOrder_outcome in H as [->|[_ ->]]; simpl.
  - repeat split; auto; exists []; rewrite app_nil_r; auto.
  - split; [reflexivity|]. split; [reflexivity|]. split; [apply clearedItems_incl|].
    split; [|split; eexists; split; try reflexivity; simpl; auto].
    intros ci Hin Hother. unfold clearedItems.
    destruct (f CartIDQuery); [exact Hin|].
    destruct (first_row _) as [c|] eqn:Hc; [|exact Hin].
    destruct (f DeleteCartItems); [exact Hin|].
    apply filter_In. split; [exact Hin|].
    assert (Hcin : In c (List.filter (fun c => c_user_id c =? userID) (carts (tables st)))).
    { destruct (List.filter _ (carts (tables st))) as [|c0 l]; [discriminate|].
      inversion Hc. now left. }
    apply filter_In in Hcin as [Hcin Hu]. apply Z.eqb_eq in Hu.
    destruct (Z.eqb_spec (ci_cart_id ci) (c_id c)) as [E|]; [|reflexivity].
    exfalso. exact (Hother c Hcin Hu E).
Qed.

Lemma CreateOrder_frame_witness :
  carts (tables demo_store_after) = carts (tables demo_store) /\
  products (tables demo_store_after) = products (tables demo_store).
Proof.
  destruct (CreateOrder_frame no_faults 100 demo_store 7 "paypal" "USD"
              (Ok demo_order) demo_store_after demo_events) as (Hp & Hc & _).
  - vm_compute. reflexivity.
  - split; [exact Hc|exact Hp].
Defined.

(** ** The counts CreateOrder records *)

Lemma addLine_counts acc c x :
  sumZ (map snd (map_to_list (addLine acc c x).2))
  = sumZ (map snd (map_to_list acc.2)) + 1.
Proof.
  destruct acc as [rev cnt]. unfold addLine. simpl.
  destruct (cnt !! c) as [m|] eqn:Hc.
  - rewrite <- (insert_delete_eq cnt).
    rewrite (sumZ_Permutation _ _
      (Permutation_map snd (map_to_list_insert (delete c cnt) c (default 0 (Some m) + 1)
                              (lookup_delete_eq cnt c)))).
    rewrite <- (sumZ_Permutation _ _
      (Permutation_map snd (map_to_list_delete cnt c m Hc))).
    simpl. lia.
  - rewrite (sumZ_Permutation _ _
      (Permutation_map snd (map_to_list_insert cnt c (default 0 None + 1) Hc))).
    simpl. lia.
Qed.

Lemma aggregateFrom_counts lines : forall acc,
  sumZ (map snd (map_to_list (aggregateFrom acc lines).2))
  = sumZ (map snd (map_to_list acc.2)) + Z.of_nat (length lines).
Proof.
  induction lines as [|[c x] lines IH]; intros acc; simpl; [lia|].
  change (fold_left _ lines ?a) with (aggregateFrom a lines).
  rewrite IH, addLine_counts. lia.
Qed.

(** X11: the OrdersCreated events of a successful CreateOrder count the
    lines of the order, not the order: there is one event per revenue
    event, and their counts add up to the number of order items the call
    inserted, which is the number of rows of the cart query when the read
    of the cart is not cut short. *)
Theorem CreateOrder_order_counts f now st userID pm cur order st' evs :
  CreateOrder f now st userID pm cur = (Ok order, st', evs) ->
  length (orderCounts evs) = length (revenueCategories evs) /\
  (exists rows,
     order_items (tables st') = order_items (tables st) ++ rows /\
     sumZ (orderCounts evs) = Z.of_nat (length rows)) /\
  ((forall i, f (CartNext i) = false) ->
   sumZ (orderCounts evs) = Z.of_nat (length (cartQuery (tables st) userID))).
Proof.
  intros H. apply CreateOrder_ok in H as (_ & Ht & _ & ->).
  rewrite categoryTotals_aggregate.
  match goal with |- context [recordCategoryMetrics ?s ?p ?c ?t] =>
    destruct (recordCategoryMetrics_revenue s p c t) as (_ & Hc & Ho) end.
  rewrite Hc, Ho. split; [now rewrite !length_map|].
  assert (Hsum : sumZ (map snd (map_to_list
            (aggregateFrom (∅, ∅)
               (linesOfItems
                  (map (withCategory
                          (lookupCategories f (tables st)
                             (map ProductID (map lineOfRow (snapshot f (tables st) userID)))))
                       (map lineOfRow (snapshot f (tables st) userID))))).2))
          = Z.of_nat (length (snapshot f (tables st) userID))).
  { rewrite aggregateFrom_counts. simpl. rewrite map_to_list_empty. simpl.
    unfold linesOfItems. now rewrite !length_map. }
  split.
  - destruct (orderItemRows_lines (next_order_id (autoinc st))
                (map lineOfRow (snapshot f (tables st) userID))
                (next_order_item_id (autoinc st))) as (_ & _ & Hl & _).
    eexists. split; [rewrite Ht; reflexivity|].
    now rewrite Hsum, Hl, length_map.
  - intros Hall. now rewrite Hsum, snapshot_all.
Qed.

Lemma CreateOrder_order_counts_witness :
  sumZ (orderCounts demo_events) = 2.
Proof.
  destruct (CreateOrder_order_counts no_faults 100 demo_store 7 "paypal" "USD"
              demo_order demo_store_after demo_events) as (_ & _ & H).
  - vm_compute. reflexivity.
  - rewrite H; reflexivity.
Defined.

(** ** UpdateOrderStatus: the rest of the store *)

Lemma updateStatusExec_none t status now orderID :
  (forall o, In o (orders t) -> o_id o <> orderID) ->
  updateStatusExec t status now orderID = (t, 0).
Proof.
  intros Hno. apply updateStatusExec_unchanged. intros o Hin Hid.
  exfalso. exact (Hno o Hin Hid).
Qed.

(** X12: for an order id that no row carries, UpdateOrderStatus with a
    recognized status (the store answering) returns "order not found",
    leaves the store exactly as it was and records no metric. *)
Theorem UpdateOrderStatus_missing_order f now st orderID status :
  In status recognized ->
  (forall o, In o (orders (tables st)) -> o_id o <> orderID) ->
  f UpdateExec = false -> f RowsAffected = false ->
  UpdateOrderStatus f now st orderID status = (Some ErrOrderNotFound, st, []).
Proof.
  intros Hs Hno Hu Hr. unfold UpdateOrderStatus.
  rewrite (validStatuses_recognized _ Hs), Hu. simpl negb. cbv iota.
  rewrite (updateStatusExec_none _ _ _ _ Hno), Hr. simpl. destruct st; reflexivity.
Qed.

Lemma UpdateOrderStatus_missing_order_witness :
  UpdateOrderStatus no_faults 200 demo_store_after 42 "shipped"
  = (Some ErrOrderNotFound, demo_store_after, []).
Proof.
  apply (UpdateOrderStatus_missing_order no_faults 200); try reflexivity.
  - unfold recognized. simpl. tauto.
  - simpl. intros o [<-|[]]. simpl. lia.
Defined.


(** X14: after an UpdateOrderStatus that returned no error, GetOrder gives
    the order it gave before with the new status and, as its update time,
    the second of the call; its id, user, payment method, total and
    currency are unchanged. *)
Theorem GetOrder_after_UpdateOrderStatus f now st orderID status st' evs f0 order :
  UpdateOrderStatus f now st orderID status = (None, st', evs) ->
  GetOrder f0 (tables st) orderID = Ok order ->
  GetOrder f0 (tables st') orderID
  = Ok (mkOrder (Order_ID order) (Order_UserID order) status
          (Order_PaymentMethod order) (Order_TotalAmount order) (Order_Currency order)
          now).
Proof.
  intros H Hget.
  assert (Hst : st' = mkStore (fst (updateStatusExec (tables st) status now orderID))
                              (autoinc st)).
  { apply UpdateOrderStatus_store in H as [[_ Hr]|H]; [congruence|exact H]. }
  subst st'. revert Hget. unfold GetOrder. destruct (f0 GetOrderQuery); [discriminate|].
  unfold orderQueryByID. simpl.
  induction (orders (tables st)) as [|o l IH]; simpl; [discriminate|].
  destruct (Z.eqb_spec (o_id o) orderID) as [E|E]; simpl.
  - rewrite E, Z.eqb_refl. simpl. intros Ho. inversion Ho. reflexivity.
  - destruct (Z.eqb_spec (o_id o) orderID); [contradiction|]. exact IH.
Qed.

Lemma GetOrder_after_UpdateOrderStatus_witness :
  GetOrder no_faults (tables demo_store_shipped) 1
  = Ok (mkOrder 1 7 "shipped" "paypal" 205995 "USD" 200).
Proof.
  apply (GetOrder_after_UpdateOrderStatus no_faults 200 demo_store_after 1 "shipped"
           demo_store_shipped [] no_faults demo_order).
  - vm_compute. reflexivity.
  - vm_compute. reflexivity.
Defined.


(** ** Order ids *)

Lemma txInsertOrderItems_counters f orderID items : forall i s r s',
  txInsertOrderItems f i orderID items s = (r, s') ->
  next_order_id (snd s') = next_order_id (snd s).
Proof.
  induction items as [|it items IH]; intros i s r s' H; simpl in H.
  - inversion H. reflexivity.
  - destruct (f (InsertOrderItem i)); [inversion H; reflexivity|].
    destruct s as [t a]. apply IH in H. exact H.
Qed.

Lemma createOrderTx_counters f now db userID pm cur s r s' :
  createOrderTx f now db userID pm cur s = (r, s') ->
  next_order_id (snd s) <= next_order_id (snd s').
Proof.
  unfold createOrderTx, txCartQuery, txInsertOrder.
  unfold mbind, Tx_bind, tx_tables, tx_lift, tx_fail, mret, Tx_ret.
  destruct (f CartQuery); [intros H; inversion H; lia|]. cbv beta iota.
  destruct (scanCartRows f 0 _ [] 0) as [[items total]|e]; [|intros H; inversion H; lia].
  destruct (length items =? 0)%nat; [intros H; inversion H; lia|].
  destruct (f InsertOrder); [intros H; inversion H; lia|]. destruct s as [t a].
  destruct (f OrderLastInsertId); [intros H; inversion H; simpl; lia|].
  destruct (txInsertOrderItems f 0 _ items _) as [[[]|e] s2] eqn:Hi;
    apply txInsertOrderItems_counters in Hi; simpl in Hi.
  - destruct s2 as [t2 a2]. rewrite txClearCart_eq. intros H. inversion H. simpl in *. lia.
  - intros H. inversion H; subst. simpl. lia.
Qed.

Lemma CreateOrder_outcome_counters f now st userID pm cur r st' evs :
  CreateOrder f now st userID pm cur = (r, st', evs) ->
  (tables st' = tables st /\
   next_order_id (autoinc st) <= next_order_id (autoinc st')) \/
  (tables st' = mkTables (products (tables st)) (carts (tables st))
     (clearedItems f (carts (tables st)) (cart_items (tables st)) userID)
     (orders (tables st) ++
        [mkOrderRow (next_order_id (autoinc st)) userID "pending" pm
           (snapshotTotal (snapshot f (tables st) userID)) cur now])
     (order_items (tables st) ++
        orderItemRows (next_order_item_id (autoinc st)) (next_order_id (autoinc st))
          (map lineOfRow (snapshot f (tables st) userID))) /\
   next_order_id (autoinc st') = next_order_id (autoinc st) + 1).
Proof.
  unfold CreateOrder. intros H.
  destruct (f BeginTx); [inversion H; left; split; [reflexivity|lia]|].
  destruct (createOrderTx _ _ _ _ _ _ _) as [[[[oid total] iwc]|e] s] eqn:Htx.
  - destruct (f Commit).
    + apply createOrderTx_counters in Htx. inversion H. left. simpl in *. auto.
    + apply createOrderTx_ok in Htx as (_ & -> & -> & -> & ->). right.
      destruct (GetOrder _ _ _); inversion H; simpl; auto.
  - apply createOrderTx_counters in Htx. inversion H. left. simpl in *. auto.
Qed.

(** X15: order ids stay well formed.  If every order id is below the
    AUTO_INCREMENT counter and unique, and every order item points to such
    an id, the same holds after CreateOrder and after UpdateOrderStatus,
    whatever their outcome; a rollback does not give an id back. *)
Theorem orders_wf_preserved st :
  orders_wf st ->
  (forall f now userID pm cur r st' evs,
     CreateOrder f now st userID pm cur = (r, st', evs) -> orders_wf st') /\
  (forall f now orderID status r st' evs,
     UpdateOrderStatus f now st orderID status = (r, st', evs) -> orders_wf st').
Proof.
  unfold orders_wf, orders_fresh, order_items_fresh, order_ids_unique.
  intros (Ho & Hoi & Hnd). split.
  - intros f now userID pm cur r st' evs H.
    apply CreateOrder_outcome_counters in H as [[-> Hle]|[-> Hnext]].
    + split; [|split; [|exact Hnd]].
      * eapply List.Forall_impl; [|exact Ho]. simpl. intros; lia.
      * eapply List.Forall_impl; [|exact Hoi]. simpl. intros; lia.
    + simpl. rewrite Hnext. split; [|split].
      * apply Forall_app. split.
        -- eapply List.Forall_impl; [|exact Ho]. simpl. intros; lia.
        -- repeat constructor. simpl. lia.
      * apply Forall_app. split.
        -- eapply List.Forall_impl; [|exact Hoi]. simpl. intros; lia.
        -- destruct (orderItemRows_lines (next_order_id (autoinc st))
                       (map lineOfRow (snapshot f (tables st) userID))
                       (next_order_item_id (autoinc st))) as (_ & Hall & _).
           eapply List.Forall_impl; [|exact Hall]. simpl. intros a ->. lia.
      * rewrite map_app. simpl. apply NoDup_app. split; [exact Hnd|].
        split; [|apply NoDup_singleton].
        intros x Hx Hx'. apply list_elem_of_In in Hx. apply list_elem_of_In in Hx'.
        destruct Hx' as [<-|[]]. apply in_map_iff in Hx as (o & Hid & Hin).
        rewrite Forall_forall in Ho. apply list_elem_of_In in Hin.
        specialize (Ho o Hin). simpl in Ho. lia.
  - intros f now orderID status r st' evs H.
    apply UpdateOrderStatus_store in H as [[-> _]| ->]; [auto|]. simpl.
    split; [|split; [exact Hoi|]].
    + apply Forall_map. eapply List.Forall_impl; [|exact Ho].
      intros o Hlt. destruct (o_id o =? orderID); exact Hlt.
    + rewrite map_map.
      replace (map (fun x => o_id (if o_id x =? orderID then set_status status now x else x))
                   (orders (tables st))) with (map o_id (orders (tables st))); [exact Hnd|].
      apply map_ext. intros o. destruct (o_id o =? orderID); reflexivity.
Qed.

Lemma orders_wf_preserved_witness : orders_wf demo_store_after.
Proof.
  destruct (orders_wf_preserved demo_store) as (H & _).
  - unfold orders_wf, orders_fresh, order_items_fresh, order_ids_unique.
    simpl. split; [constructor|]. split; [constructor|apply NoDup_nil; exact I].
  - apply (H no_faults 100 7 "paypal" "USD" (Ok demo_order) demo_store_after demo_events).
    vm_compute. reflexivity.
Defined.

(** ** ListUserOrders *)

Lemma ListUserOrders_no_fault by_created_at g t userID :
  g ListOrdersQuery = false ->
  (forall i, g (ListOrdersNext i) = false) -> (forall i, g (ListOrdersScan i) = false) ->
  ListUserOrders by_created_at g t userID
  = (map order_of_row
       (by_created_at (List.filter (fun o => o_user_id o =? userID) (orders t))), None).
Proof.
  intros Hq Hn Hs. unfold ListUserOrders. rewrite Hq.
  rewrite (scanRows_no_fault _ _ _ _
             (map order_of_row
                (by_created_at (List.filter (fun o => o_user_id o =? userID) (orders t)))))
    by (auto; generalize (by_created_at
                            (List.filter (fun o => o_user_id o =? userID) (orders t))) as l;
        induction l; constructor; auto).
  reflexivity.
Qed.

(** X16: when the store answers, ListUserOrders returns the orders of the
    user and no others; after a successful CreateOrder (ids fresh) the
    user's list is the former list plus the order that CreateOrder
    returned, and the list of every other user is unchanged, up to the
    order in which the store sorts them. *)
Theorem ListUserOrders_after_CreateOrder by_created_at g f now st userID pm cur order st' evs :
  (forall l, Permutation (by_created_at l) l) ->
  g ListOrdersQuery = false ->
  (forall i, g (ListOrdersNext i) = false) -> (forall i, g (ListOrdersScan i) = false) ->
  CreateOrder f now st userID pm cur = (Ok order, st', evs) -> orders_fresh st ->
  (forall v o, In o (fst (ListUserOrders by_created_at g (tables st') v)) ->
               Order_UserID o = v) /\
  snd (ListUserOrders by_created_at g (tables st') userID) = None /\
  Permutation (fst (ListUserOrders by_created_at g (tables st') userID))
              (order :: fst (ListUserOrders by_created_at g (tables st) userID)) /\
  forall v, v <> userID ->
    Permutation (fst (ListUserOrders by_created_at g (tables st') v))
                (fst (ListUserOrders by_created_at g (tables st) v)).
Proof.
  intros Hperm Hq Hn Hs H Hfresh.
  assert (Horder : order = order_of_row
            (mkOrderRow (next_order_id (autoinc st)) userID "pending" pm
               (snapshotTotal (snapshot f (tables st) userID)) cur now)).
  { now apply (CreateOrder_order f now st userID pm cur order st' evs). }
  apply CreateOrder_ok in H as (_ & Ht & _ & _).
  rewrite !ListUserOrders_no_fault by assumption. simpl.
  split; [|split; [reflexivity|split]].
  - intros v o Hin. rewrite ListUserOrders_no_fault in Hin by assumption. simpl in Hin.
    apply in_map_iff in Hin as (row & <- & Hin).
    apply (Permutation_in _ (Hperm _)) in Hin. apply filter_In in Hin as [_ Hu].
    apply Z.eqb_eq in Hu. exact Hu.
  - rewrite Ht. simpl. rewrite List.filter_app. simpl. rewrite Z.eqb_refl.
    rewrite Horder.
    change (order_of_row ?r :: map order_of_row ?l) with (map order_of_row (r :: l)).
    apply Permutation_map. rewrite (Hperm _).
    rewrite <- Permutation_cons_append. constructor. symmetry. apply Hperm.
  - intros v Hne. rewrite !ListUserOrders_no_fault by assumption. simpl.
    rewrite Ht. simpl. rewrite List.filter_app. simpl.
    destruct (Z.eqb_spec userID v); [congruence|]. rewrite app_nil_r.
    apply Permutation_map. rewrite (Hperm _). reflexivity.
Qed.

Lemma ListUserOrders_after_CreateOrder_witness :
  Permutation (fst (ListUserOrders (@rev OrderRow) no_svc_faults (tables demo_store_after) 7))
              (demo_order :: fst (ListUserOrders (@rev OrderRow) no_svc_faults
                                    (tables demo_store) 7)).
Proof.
  destruct (ListUserOrders_after_CreateOrder (@rev OrderRow) no_svc_faults no_faults 100
              demo_store 7 "paypal" "USD" demo_order demo_store_after demo_events)
    as (_ & _ & H & _).
  - intros l. symmetry. apply Permutation_rev.
  - reflexivity.
  - reflexivity.
  - reflexivity.
  - vm_compute. reflexivity.
  - constructor.
  - exact H.
Defined.

(** ** GetProduct and the cache *)

Lemma cacheGet_None_later (items : gmap Z cachedProduct) now now2 id :
  cacheGet items now id = None -> now <= now2 -> cacheGet items now2 id = None.
Proof.
  unfold cacheGet. destruct (items !! id) as [e|]; [|reflexivity].
  destruct (Z.ltb_spec now (expires e)); [discriminate|].
  intros _ Hle. destruct (Z.ltb_spec now2 (expires e)); [lia|reflexivity].
Qed.

(** What a call does to the cache: nothing, or one put for the id asked
    for, of the product it returns. *)
Lemma GetProduct_cache f t (items : gmap Z cachedProduct) now now' id r items' evs :
  GetProduct f t items now now' id = (r, items', evs) ->
  (items' = items /\
   (forall p, r = Ok p -> cacheGet items now id = Some p) /\
   (forall e, r = Err e -> cacheGet items now id = None)) \/
  (exists row p,
     r = Ok p /\ items' = cachePut items now' id p /\ cacheGet items now id = None /\
     In row (products t) /\ p_id row = id /\ scanProduct row = Some p).
Proof.
  unfold GetProduct. intros H.
  destruct (cacheGet items now id) as [p|] eqn:Hc.
  - left. inversion H. split; [reflexivity|]. split; [intros p0 E; now inversion E|discriminate].
  - destruct (f ProductQuery);
      [left; inversion H; split; [reflexivity|split; [discriminate|auto]]|].
    destruct (first_row _) as [row|] eqn:Hrow;
      [|left; inversion H; split; [reflexivity|split; [discriminate|auto]]].
    destruct (scanProduct row) as [p|] eqn:Hs;
      [|left; inversion H; split; [reflexivity|split; [discriminate|auto]]].
    right. exists row, p. inversion H.
    assert (Hin : In row (List.filter (fun r => p_id r =? id) (products t))).
    { destruct (List.filter _ (products t)) as [|r0 l]; [discriminate|].
      inversion Hrow. now left. }
    apply filter_In in Hin as [Hin Hid]. apply Z.eqb_eq in Hid. auto 7.
Qed.

(** X17: a GetProduct that fails caches nothing, also no "not found": the
    cache is as before, and every later call for the id (until a load
    succeeds) is a miss again and goes to the store. *)
Theorem GetProduct_failure_not_cached f t (items : gmap Z cachedProduct)
    now now' id e items' evs :
  GetProduct f t items now now' id = (Err e, items', evs) ->
  items' = items /\
  forall f2 t2 now2 now2', now <= now2 ->
    exists r items2 evs2,
      GetProduct f2 t2 items' now2 now2' id = (r, items2, CacheMisses :: evs2).
Proof.
  intros H. apply GetProduct_cache in H as [(-> & _ & Hnone)|(row & p & E & _)];
    [|discriminate].
  split; [reflexivity|]. intros f2 t2 now2 now2' Hle.
  pose proof (cacheGet_None_later _ _ _ _ (Hnone e eq_refl) Hle) as Hc.
  unfold GetProduct. rewrite Hc.
  destruct (f2 ProductQuery); [eauto|].
  destruct (first_row _) as [r|]; [|eauto].
  destruct (scanProduct r); eauto.
Qed.

Lemma GetProduct_failure_not_cached_witness :
  exists r items2 evs2,
    GetProduct no_faults (tables demo_store) ∅ 5 6 42 = (r, items2, CacheMisses :: evs2).
Proof.
  destruct (GetProduct_failure_not_cached no_faults (tables demo_store) ∅ 0 1 42
              ErrProductNotFound ∅ [CacheMisses]) as (_ & H).
  - vm_compute. reflexivity.
  - apply (H no_faults (tables demo_store) 5 6). lia.
Defined.

(** X18: an expired entry is replaced on the next read.  When the entry of
    the id has expired and the store has a row for it that scans, GetProduct
    records a miss, returns the store's product and caches it; reads before
    the new expiry then return that product, whatever the store holds by
    then. *)
Theorem GetProduct_refresh f t (items : gmap Z cachedProduct) now now' id old row p :
  items !! id = Some old -> expires old <= now ->
  f ProductQuery = false ->
  first_row (List.filter (fun r => p_id r =? id) (products t)) = Some row ->
  scanProduct row = Some p ->
  GetProduct f t items now now' id
    = (Ok p, cachePut items now' id p, [CacheMisses; ProductsViewed id (Product_Category p)]) /\
  forall f2 t2 now2 now2', now2 < now' + cacheTTL ->
    GetProduct f2 t2 (cachePut items now' id p) now2 now2' id
    = (Ok p, cachePut items now' id p, [CacheHits; ProductsViewed id (Product_Category p)]).
Proof.
  intros Hold Hexp Hq Hrow Hscan.
  assert (Hc : cacheGet items now id = None).
  { unfold cacheGet. rewrite Hold. destruct (Z.ltb_spec now (expires old)); [lia|reflexivity]. }
  split.
  - unfold GetProduct. now rewrite Hc, Hq, Hrow, Hscan.
  - intros f2 t2 now2 now2' Hlt. unfold GetProduct. rewrite cacheGet_cachePut.
    destruct (Z.ltb_spec now2 (now' + cacheTTL)); [reflexivity|lia].
Qed.

Lemma GetProduct_refresh_witness :
  GetProduct no_faults (tables demo_store)
    (cachePut ∅ 0 1 (mkProduct 1 "Laptop" "Old description" 89999 "Electronics" "LAP-001"))
    cacheTTL (cacheTTL + 1) 1
  = (Ok demo_laptop,
     cachePut
       (cachePut ∅ 0 1 (mkProduct 1 "Laptop" "Old description" 89999 "Electronics" "LAP-001"))
       (cacheTTL + 1) 1 demo_laptop,
     [CacheMisses; ProductsViewed 1 "Electronics"]).
Proof.
  apply (GetProduct_refresh no_faults (tables demo_store) _ cacheTTL (cacheTTL + 1) 1
           (mkCachedProduct
              (mkProduct 1 "Laptop" "Old description" 89999 "Electronics" "LAP-001")
              (0 + cacheTTL))
           (mkProductRow 1 "Laptop" (Some "High-performance laptop") 99999
              (Some "Electronics") "LAP-001")).
  - unfold cachePut. apply lookup_insert_eq.
  - simpl. lia.
  - reflexivity.
  - reflexivity.
  - reflexivity.
Defined.

(** X19: the cache never mixes products up.  If every entry holds the
    product of its key (as in the empty cache of a new service), then after
    any GetProduct this still holds, the product returned has the id that
    was asked for, and the entries of all other ids are untouched. *)
Theorem GetProduct_cache_ids f t (items : gmap Z cachedProduct) now now' id r items' evs :
  cache_ids_match items ->
  GetProduct f t items now now' id = (r, items', evs) ->
  cache_ids_match items' /\
  (forall p, r = Ok p -> Product_ID p = id) /\
  (forall id', id' <> id -> items' !! id' = items !! id').
Proof.
  intros Hinv H. apply GetProduct_cache in H
    as [(-> & Hhit & _)|(row & p & -> & -> & _ & _ & Hid & Hscan)].
  - split; [exact Hinv|]. split; [|auto]. intros p E. specialize (Hhit p E).
    unfold cacheGet in Hhit. destruct (items !! id) as [e|] eqn:He; [|discriminate].
    destruct (now <? expires e); [|discriminate]. inversion Hhit; subst p.
    exact (Hinv id e He).
  - assert (Hp : Product_ID p = id).
    { unfold scanProduct in Hscan.
      destruct (p_description row), (p_category row); try discriminate.
      inversion Hscan. simpl. exact Hid. }
    split; [|split].
    + intros k e. unfold cachePut. destruct (decide (id = k)) as [<-|Hne].
      * rewrite lookup_insert_eq. intros E. inversion E. simpl. exact Hp.
      * rewrite lookup_insert_ne by assumption. apply Hinv.
    + intros p0 E. inversion E; subst p0. exact Hp.
    + intros id' Hne. unfold cachePut. now rewrite lookup_insert_ne by auto.
Qed.

Lemma GetProduct_cache_ids_witness :
  cache_ids_match (cachePut ∅ 1 1 demo_laptop) /\ Product_ID demo_laptop = 1.
Proof.
  destruct (GetProduct_cache_ids no_faults (tables demo_store) ∅ 0 1 1 (Ok demo_laptop)
              (cachePut ∅ 1 1 demo_laptop) [CacheMisses; ProductsViewed 1 "Electronics"])
    as (Hinv & Hid & _).
  - intros k e Hk. rewrite lookup_empty in Hk. discriminate.
  - reflexivity.
  - split; [exact Hinv|]. now apply Hid.
Defined.

(** ** ListProducts *)

Lemma firstn_add_skipn {A} (a b : nat) (l : list A) :
  firstn (a + b) l = firstn a l ++ firstn b (skipn a l).
Proof.
  revert l. induction a as [|a IH]; intros l; simpl; [reflexivity|].
  destruct l as [|x l]; simpl; [now rewrite firstn_nil|]. now rewrite IH.
Qed.

Lemma skipn_skipn_add {A} (a b : nat) (l : list A) :
  skipn a (skipn b l) = skipn (b + a) l.
Proof.
  revert l. induction b as [|b IH]; intros l; simpl; [reflexivity|].
  destruct l as [|x l]; simpl; [now rewrite skipn_nil|]. apply IH.
Qed.

Lemma scanned_products rows :
  Forall (fun r => is_Some (scanProduct r)) rows ->
  Forall2 (fun r a => scanProduct r = Some a) rows (omap scanProduct rows).
Proof.
  induction 1 as [|r rows [p Hp] _ IH]; simpl; [constructor|].
  rewrite Hp. constructor; assumption.
Qed.

Lemma Forall_firstn {A} (P : A -> Prop) (n : nat) : forall l : list A,
  Forall P l -> Forall P (firstn n l).
Proof.
  induction n as [|n IH]; intros l H; simpl; [constructor|].
  destruct H; constructor; auto.
Qed.

Lemma Forall_skipn {A} (P : A -> Prop) (n : nat) : forall l : list A,
  Forall P l -> Forall P (skipn n l).
Proof.
  induction n as [|n IH]; intros l H; simpl; [exact H|].
  destruct H; [constructor|]. now apply IH.
Qed.

Lemma Forall_firstn_skipn {A} (P : A -> Prop) (n m : nat) (l : list A) :
  Forall P l -> Forall P (firstn n (skipn m l)).
Proof. intros H. now apply Forall_firstn, Forall_skipn. Qed.

Lemma ListProducts_no_fault g t limit offset :
  0 <= limit -> 0 <= offset ->
  g ListProductsQuery = false ->
  (forall i, g (ListProductsNext i) = false) -> (forall i, g (ListProductsScan i) = false) ->
  products_scan t ->
  ListProducts g t limit offset
  = (omap scanProduct (firstn (Z.to_nat limit) (skipn (Z.to_nat offset) (products t))), None).
Proof.
  intros Hl Ho Hq Hn Hs Hscan. unfold ListProducts.
  destruct (Z.ltb_spec limit 0); [lia|]. destruct (Z.ltb_spec offset 0); [lia|].
  rewrite Hq. simpl.
  rewrite (scanRows_no_fault _ _ _ _
             (omap scanProduct
                (firstn (Z.to_nat limit) (skipn (Z.to_nat offset) (products t)))))
    by (auto; apply scanned_products, Forall_firstn_skipn, Hscan).
  reflexivity.
Qed.

(** X20: pages of ListProducts fit together.  When every catalog row scans
    and the store answers, a page never holds more than [limit] products,
    and the page of a + b products at an offset is the page of a products
    at that offset followed by the page of b products at the offset plus
    a: paging through the catalog neither repeats nor skips a product. *)
Theorem ListProducts_pages g t a b offset :
  0 <= a -> 0 <= b -> 0 <= offset ->
  g ListProductsQuery = false ->
  (forall i, g (ListProductsNext i) = false) -> (forall i, g (ListProductsScan i) = false) ->
  products_scan t ->
  ListProducts g t (a + b) offset
    = (fst (ListProducts g t a offset) ++ fst (ListProducts g t b (offset + a)), None) /\
  Z.of_nat (length (fst (ListProducts g t a offset))) <= a.
Proof.
  intros Ha Hb Ho Hq Hn Hs Hscan.
  rewrite !ListProducts_no_fault by (auto; lia). simpl. split.
  - rewrite Z2Nat.inj_add by lia. rewrite firstn_add_skipn, omap_app.
    rewrite skipn_skipn_add, <- Z2Nat.inj_add by lia. reflexivity.
  - pose proof (scanned_products _ (Forall_firstn_skipn _ (Z.to_nat a) (Z.to_nat offset) _ Hscan))
      as H2.
    apply Forall2_length in H2. rewrite <- H2.
    pose proof (firstn_le_length (Z.to_nat a) (skipn (Z.to_nat offset) (products t))). lia.
Qed.

Lemma ListProducts_pages_witness :
  ListProducts no_svc_faults
    (mkTables [mkProductRow 1 "Laptop" (Some "High-performance laptop") 99999
                 (Some "Electronics") "LAP-001";
               mkProductRow 8 "T-Shirt" (Some "Cotton t-shirt") 1999
                 (Some "Clothing") "TSH-001"] [] [] [] [])
    (1 + 1) 0
  = ([demo_laptop;
      mkProduct 8 "T-Shirt" "Cotton t-shirt" 1999 "Clothing" "TSH-001"], None).
Proof.
  destruct (ListProducts_pages no_svc_faults
    (mkTables [mkProductRow 1 "Laptop" (Some "High-performance laptop") 99999
                 (Some "Electronics") "LAP-001";
               mkProductRow 8 "T-Shirt" (Some "Cotton t-shirt") 1999
                 (Some "Clothing") "TSH-001"] [] [] [] [])
    1 1 0) as [H _].
  - lia.
  - lia.
  - lia.
  - reflexivity.
  - reflexivity.
  - reflexivity.
  - unfold products_scan. simpl. repeat constructor; eexists; reflexivity.
  - rewrite H. reflexivity.
Defined.

(** ** Handlers *)

Lemma parseDigits_all_digits s : forall n m,
  parseDigits s n = Some m -> all_digits s = true.
Proof.
  induction s as [|a s IH]; intros n m H; simpl in *; [reflexivity|].
  destruct (digitValue a); [eauto|discriminate].
Qed.

Lemma parseDigits_nonneg s : forall n m,
  0 <= n -> parseDigits s n = Some m -> 0 <= m.
Proof.
  induction s as [|a s IH]; intros n m Hn H; simpl in *; [inversion H; lia|].
  destruct (digitValue a) as [d|] eqn:Hd; [|discriminate].
  apply IH in H; [exact H|]. unfold digitValue in Hd.
  destruct (_ && _) eqn:Hb; [|discriminate]. inversion Hd.
  apply andb_true_iff in Hb as [Hb _]. apply Z.leb_le in Hb. lia.
Qed.

Lemma ParseInt_sound s n :
  ParseInt s = Some n ->
  decimal_form s = true /\ - 2 ^ 63 <= n <= 2 ^ 63 - 1.
Proof.
  unfold ParseInt, decimal_form. destruct s as [|a s']; [discriminate|].
  destruct (Ascii.eqb a "+") eqn:Hp; cbn -[parseDigits all_digits Z.pow Z.ltb Z.leb].
  - destruct s' as [|b s'']; [discriminate|].
    destruct (parseDigits (String b s'') 0) as [un|] eqn:Hd; [|discriminate].
    pose proof (parseDigits_all_digits _ _ _ Hd). pose proof (parseDigits_nonneg _ _ _ (Z.le_refl 0) Hd).
    destruct (Z.ltb_spec un (2 ^ 63)); [|discriminate].
    intros E; inversion E; subst. split; [assumption|lia].
  - destruct (Ascii.eqb a "-") eqn:Hm; cbn -[parseDigits all_digits Z.pow Z.ltb Z.leb].
    + destruct s' as [|b s'']; [discriminate|].
      destruct (parseDigits (String b s'') 0) as [un|] eqn:Hd; [|discriminate].
      pose proof (parseDigits_all_digits _ _ _ Hd).
      pose proof (parseDigits_nonneg _ _ _ (Z.le_refl 0) Hd).
      destruct (Z.leb_spec un (2 ^ 63)); [|discriminate].
      intros E; inversion E; subst. split; [assumption|lia].
    + destruct (parseDigits (String a s') 0) as [un|] eqn:Hd; [|discriminate].
      pose proof (parseDigits_all_digits _ _ _ Hd).
      pose proof (parseDigits_nonneg _ _ _ (Z.le_refl 0) Hd).
      destruct (Z.ltb_spec un (2 ^ 63)); [|discriminate].
      intros E; inversion E; subst. split; [assumption|lia].
Qed.

(** X21: the user a handler acts for.  The id taken from the [user_id]
    parameter always fits a signed 64-bit integer; whenever the parameter
    is not an optional sign followed by decimal digits (absent, empty,
    letters, spaces, a decimal point) the request is not rejected but
    served as user 1; and any other id than 1 was written out in the
    parameter in that form. *)
Theorem userIDParam_fallback uid :
  - 2 ^ 63 <= userIDParam uid <= 2 ^ 63 - 1 /\
  (decimal_form uid = false -> userIDParam uid = 1) /\
  (userIDParam uid <> 1 ->
   decimal_form uid = true /\ ParseInt uid = Some (userIDParam uid)).
Proof.
  unfold userIDParam. destruct (String.eqb uid "") eqn:He.
  - apply String.eqb_eq in He. subst uid. split; [lia|]. split; [auto|congruence].
  - destruct (ParseInt uid) as [n|] eqn:Hp.
    + destruct (ParseInt_sound _ _ Hp) as [Hf Hr]. split; [exact Hr|].
      split; [congruence|auto].
    + split; [lia|]. split; [auto|congruence].
Qed.

Lemma userIDParam_fallback_witness :
  userIDParam "7; DROP" = 1 /\ userIDParam "12" = 12.
Proof.
  destruct (userIDParam_fallback "7; DROP") as (_ & H & _).
  destruct (userIDParam_fallback "12") as (_ & _ & H2).
  split; [apply H; reflexivity|].
  assert (Hne : userIDParam "12" <> 1) by (vm_compute; discriminate).
  destruct (H2 Hne) as [_ Hp]. vm_compute in Hp. vm_compute. reflexivity.
Defined.

(** X22: what the status of CreateOrderHandler tells.  201 means that
    exactly one order row was added, for the user of the request, pending,
    with the request's payment method and currency or the defaults
    "credit_card" and "USD" for empty ones.  Any other status means, unless
    the re-read after the commit is what failed, that the tables are as
    before and no metric was recorded; and an empty cart is answered with
    400 when the transaction opens and the cart is read. *)
Theorem CreateOrderHandler_contract f now st uid body resp st' evs :
  CreateOrderHandler f now st uid body = (resp, st', evs) ->
  (StatusCode resp = 201 ->
   exists req total,
     body = Some req /\
     orders (tables st') = orders (tables st) ++
       [mkOrderRow (next_order_id (autoinc st)) (userIDParam uid) "pending"
          (paymentMethodOf req) total (currencyOf req) now]) /\
  (StatusCode resp <> 201 -> f GetOrderQuery = false ->
   tables st' = tables st /\ evs = []) /\
  (cartQuery (tables st) (userIDParam uid) = [] -> body <> None ->
   f BeginTx = false -> f CartQuery = false ->
   resp = mkResponse 400 (BodyError ErrCartEmpty) /\ st' = st).
Proof.
  unfold CreateOrderHandler. intros H.
  destruct body as [req|].
  2:{ inversion H; subst. simpl. split; [discriminate|]. split; [auto|]. congruence. }
  fold (currencyOf req) in H. fold (paymentMethodOf req) in H.
  destruct (CreateOrder f now st (userIDParam uid) (paymentMethodOf req) (currencyOf req))
    as [[[order|e] st1] evs1] eqn:Hco; inversion H; subst; clear H; simpl.
  - split; [|split].
    + intros _. apply CreateOrder_ok in Hco as (_ & Ht & _ & _).
      exists req. eexists. split; [reflexivity|]. rewrite Ht. reflexivity.
    + congruence.
    + intros Hempty _ Hb Hq.
      destruct (CreateOrder_on_empty f now st (userIDParam uid) (paymentMethodOf req)
                  (currencyOf req) Hempty) as (e & He & _).
      rewrite He in Hco. discriminate.
  - split; [|split].
    + destruct e; discriminate.
    + intros _ Hg. eapply CreateOrder_error_rolls_back; eauto.
    + intros Hempty _ Hb Hq.
      destruct (CreateOrder_on_empty f now st (userIDParam uid) (paymentMethodOf req)
                  (currencyOf req) Hempty) as (e' & He & Hkind).
      rewrite He in Hco. inversion Hco; subst. rewrite (Hkind Hb Hq). auto.
Qed.

Lemma CreateOrderHandler_contract_witness :
  exists req total,
    Some (mkCreateOrderRequest "" "") = Some req /\
    orders (tables (mkStore
      (mkTables demo_products [mkCartRow 1 7; mkCartRow 2 9] []
         [mkOrderRow 1 7 "pending" "credit_card" 205995 "USD" 100]
         [mkOrderItemRow 1 1 1 2 99999; mkOrderItemRow 2 1 8 3 1999])
      (mkAutoInc 3 3 2 3)))
    = orders (tables demo_store) ++
      [mkOrderRow (next_order_id (autoinc demo_store)) (userIDParam "7") "pending"
         (paymentMethodOf req) total (currencyOf req) 100].
Proof.
  destruct (CreateOrderHandler_contract no_faults 100 demo_store "7"
              (Some (mkCreateOrderRequest "" ""))
              (mkResponse 201
                 (BodyOrder (mkOrder 1 7 "pending" "credit_card" 205995 "USD" 100)))
              (mkStore
                 (mkTables demo_products [mkCartRow 1 7; mkCartRow 2 9] []
                    [mkOrderRow 1 7 "pending" "credit_card" 205995 "USD" 100]
                    [mkOrderItemRow 1 1 1 2 99999; mkOrderItemRow 2 1 8 3 1999])
                 (mkAutoInc 3 3 2 3))
              [OrdersCreated 1 "pending" "credit_card" "Clothing";
               RevenueTotal 5997 "USD" "credit_card" "Clothing" "pending";
               OrdersCreated 1 "pending" "credit_card" "Electronics";
               RevenueTotal 199998 "USD" "credit_card" "Electronics" "pending"])
    as (H & _).
  - vm_compute. reflexivity.
  - apply H. reflexivity.
Defined.

(** X23: UpdateOrderStatusHandler reports every error of the service as
    500.  For an id that parses and a body that decodes, an unrecognized
    status is answered with 500 and the store untouched, and so is, the
    store answering, a recognized status for an order id that no row
    carries; the answer is 200 exactly when the service returned no
    error. *)
Theorem UpdateOrderStatusHandler_errors f now st id orderID status :
  ParseInt id = Some orderID ->
  (~ In status recognized ->
   UpdateOrderStatusHandler f now st id (Some status)
   = (mkResponse 500 (BodyError (ErrInvalidStatus status)), st, [])) /\
  (In status recognized ->
   (forall o, In o (orders (tables st)) -> o_id o <> orderID) ->
   f UpdateExec = false -> f RowsAffected = false ->
   UpdateOrderStatusHandler f now st id (Some status)
   = (mkResponse 500 (BodyError ErrOrderNotFound), st, [])) /\
  (forall resp st' evs,
     UpdateOrderStatusHandler f now st id (Some status) = (resp, st', evs) ->
     (StatusCode resp = 200 <->
      exists evs0, UpdateOrderStatus f now st orderID status = (None, st', evs0))).
Proof.
  intros Hid. unfold UpdateOrderStatusHandler. rewrite Hid. split; [|split].
  - intros Hs. unfold UpdateOrderStatus. now rewrite validStatuses_unrecognized.
  - intros Hs Hno Hu Hr. unfold UpdateOrderStatus.
    rewrite (validStatuses_recognized _ Hs), Hu. simpl negb. cbv iota.
    rewrite (updateStatusExec_none _ _ _ _ Hno), Hr. simpl. destruct st; reflexivity.
  - intros resp st' evs H.
    destruct (UpdateOrderStatus f now st orderID status) as [[[e|] st1] evs1];
      inversion H; subst; simpl; split.
    + discriminate.
    + intros [evs0 E]. discriminate.
    + eauto.
    + reflexivity.
Qed.

Lemma UpdateOrderStatusHandler_errors_witness :
  UpdateOrderStatusHandler no_faults 200 demo_store_after "1" (Some "refunded")
  = (mkResponse 500 (BodyError (ErrInvalidStatus "refunded")), demo_store_after, []).
Proof.
  destruct (UpdateOrderStatusHandler_errors no_faults 200 demo_store_after "1" 1 "refunded")
    as (H & _).
  - reflexivity.
  - apply H. unfold recognized. simpl. intros [E|[E|[E|[E|[E|[E|[]]]]]]]; discriminate E.
Defined.

(** X24: AddToCartHandler answers 404 exactly for a product that is not in
    the catalog.  With the user's cart resolved and the product check
    answered, the status is 404 if and only if no catalog row has the
    product id, and then no cart item has been written. *)
Theorem AddToCartHandler_not_found f st uid req cart st1 resp st' evs :
  GetOrCreateCart f st (userIDParam uid) = (Ok cart, st1) ->
  f ProductExists = false ->
  AddToCartHandler f st uid (Some req) = (resp, st', evs) ->
  (StatusCode resp = 404 <->
   existsb (fun p => p_id p =? Request_ProductID req) (products (tables st)) = false) /\
  (StatusCode resp = 404 -> cart_items (tables st') = cart_items (tables st)).
Proof.
  intros Hc Hpe H.
  destruct (GetOrCreateCart_tables _ _ _ _ _ Hc) as (Hp & Hi & _).
  unfold AddToCartHandler, AddToCart in H. rewrite Hc, Hpe, Hp in H.
  destruct (existsb _ (products (tables st))) eqn:Hex; simpl in H.
  - assert (Hne : StatusCode resp <> 404).
    { destruct (f CartItemSelect); [inversion H; simpl; lia|].
      destruct (first_row _).
      - destruct (f CartItemUpdate); inversion H; simpl; lia.
      - destruct (f CartItemInsert); inversion H; simpl; lia. }
    split; [split; [contradiction|discriminate]|contradiction].
  - inversion H; subst. simpl. split; [tauto|auto].
Qed.

Lemma AddToCartHandler_not_found_witness :
  AddToCartHandler no_faults demo_store "7" (Some (mkAddToCartRequest 999 1))
  = (mkResponse 404 (BodyError ErrProductNotFound), demo_store, []) /\
  existsb (fun p => p_id p =? 999) (products (tables demo_store)) = false.
Proof.
  destruct (AddToCartHandler_not_found no_faults demo_store "7" (mkAddToCartRequest 999 1)
              (mkCart 1 7) demo_store
              (mkResponse 404 (BodyError ErrProductNotFound)) demo_store [])
    as ([H _] & _).
  - reflexivity.
  - reflexivity.
  - reflexivity.
  - split; [reflexivity|]. apply H. reflexivity.
Defined.
